(** * The multi-GPU GPT example driver

    A shallow embedding of [examples/cpp/multi_gpu_gpt/multi_gpu_gpt_example.cc]
    and the properties of its start-up checks, buffer set-up and
    warm-up / collect / measure protocol.

    The driver is a straight-line procedure over external libraries (MPI,
    CUDA, NCCL, the decode engine).  It is embedded as a computation in a
    trace-and-halt monad: every external call the source makes becomes an
    event in the trace, every way the source can stop early ([exit],
    a failed check macro, undefined behaviour of C++ arithmetic) becomes a
    [halt] value.  What the external calls return is read from an
    environment record. *)

From Stdlib Require Import ZArith List Bool String Lia.
Import ListNotations.
Open Scope string_scope.
Open Scope list_scope.
Open Scope Z_scope.

(** ** C++ integer arithmetic *)

Module CInt.

Definition INT_MIN : Z := -2147483648.
Definition INT_MAX : Z := 2147483647.
Definition SIZE_MODULUS : Z := 18446744073709551616.
Definition UINT_MODULUS : Z := 4294967296.

Definition in_int (z : Z) : bool := (INT_MIN <=? z) && (z <=? INT_MAX).

(** Conversion of an integer value to [size_t] (64 bits, modular). *)
Definition to_size_t (z : Z) : Z := z mod SIZE_MODULUS.

(** Narrowing conversion to [int] (two's complement, modular). *)
Definition to_int (z : Z) : Z := (z - INT_MIN) mod UINT_MODULUS + INT_MIN.

(** [int] arithmetic: signed overflow and division by zero are undefined,
    which is [None] here. *)
Definition int_add (a b : Z) : option Z :=
  if in_int (a + b) then Some (a + b) else None.

Definition int_mul (a b : Z) : option Z :=
  if in_int (a * b) then Some (a * b) else None.

Definition int_div (a b : Z) : option Z :=
  if (b =? 0) || ((a =? INT_MIN) && (b =? -1)) then None
  else Some (Z.quot a b).

Definition int_rem (a b : Z) : option Z :=
  if (b =? 0) || ((a =? INT_MIN) && (b =? -1)) then None
  else Some (Z.rem a b).

(** [size_t] arithmetic wraps around; only division by zero is undefined. *)
Definition size_add (a b : Z) : Z := (a + b) mod SIZE_MODULUS.
Definition size_mul (a b : Z) : Z := (a * b) mod SIZE_MODULUS.

Definition size_div (a b : Z) : option Z :=
  if b =? 0 then None else Some (a / b).

Definition size_rem (a b : Z) : option Z :=
  if b =? 0 then None else Some (a mod b).

End CInt.
Import CInt.

(** ** Data *)

(** The configuration file as the driver sees it, through
    [INIReader::Get] and [INIReader::GetInteger] (which returns a [long]). *)
Record INIReader : Type := {
  Get : string -> string -> string;
  GetInteger : string -> string -> Z
}.

(** The template parameter [T]. *)
Inductive precision : Type := float | half.

(** Values read at lines 74-99, with the conversions the source applies. *)
Record hyperparameters : Type := {
  model_name : string;
  max_batch_size : Z;       (* size_t *)
  max_seq_len : Z;          (* size_t *)
  beam_width : Z;           (* size_t *)
  top_k : Z;                (* int *)
  model_dir : string;
  tensor_para_size : Z;     (* int *)
  pipeline_para_size : Z;   (* int *)
  head_num : Z;             (* size_t *)
  size_per_head : Z;        (* size_t *)
  vocab_size : Z;           (* size_t *)
  decoder_layers : Z;       (* size_t *)
  hidden_units : Z;         (* size_t *)
  inter_size : Z;           (* size_t *)
  request_batch_size : Z;   (* size_t *)
  request_output_len : Z    (* int *)
}.

Definition start_id : Z := 50256.
Definition end_id : Z := 50256.

(** Lines 74-96.  The three [float] hyper-parameters ([top_p],
    [temperature], [repetition_penalty]) are handed to the engine untouched
    and are left out. *)
Definition read_hyperparameters (reader : INIReader) : hyperparameters :=
  let section := "ft_instance_hyperparameter" in
  let model_name := Get reader section "model_name" in
  let head_num := to_size_t (GetInteger reader model_name "head_num") in
  let size_per_head := to_size_t (GetInteger reader model_name "size_per_head") in
  let hidden_units := size_mul head_num size_per_head in
  {| model_name := model_name;
     max_batch_size := to_size_t (GetInteger reader section "max_batch_size");
     max_seq_len := to_size_t (GetInteger reader section "max_seq_len");
     beam_width := to_size_t (GetInteger reader section "beam_width");
     top_k := to_int (GetInteger reader section "top_k");
     model_dir := Get reader section "model_dir";
     tensor_para_size := to_int (GetInteger reader section "tensor_para_size");
     pipeline_para_size := to_int (GetInteger reader section "pipeline_para_size");
     head_num := head_num;
     size_per_head := size_per_head;
     vocab_size := to_size_t (GetInteger reader model_name "vocab_size");
     decoder_layers := to_size_t (GetInteger reader model_name "decoder_layers");
     hidden_units := hidden_units;
     inter_size := size_mul 4 hidden_units;
     request_batch_size := to_size_t (GetInteger reader "request" "request_batch_size");
     request_output_len := to_int (GetInteger reader "request" "request_output_len") |}.

(** Device buffers the driver owns, named after its pointer variables. *)
Inductive buffer : Type :=
  | d_input_ids | d_input_lengths
  | d_output_ids | d_parent_ids | d_sequence_lengths.

Inductive pointer : Type :=
  | nullptr
  | device (b : buffer)
  | host_int (value : Z).   (* address of a host [int] holding [value] *)

Inductive MemoryType : Type := MEMORY_CPU | MEMORY_GPU.
Inductive DataType : Type := TYPE_INT32 | TYPE_FP32.

Record Tensor : Type := {
  where_ : MemoryType;
  type_ : DataType;
  shape : list Z;
  data : pointer
}.

Inductive communicator : Type := comm_tensor_parallel | comm_pipeline_parallel.
Inductive nvtx_scope : Type := warmup_time | total_time.
Inductive timeval_var : Type := tv_start | tv_end.

(** What the external calls return to the driver. *)
Record Env : Type := {
  (** whether the call wrapped in a check macro at a source line succeeds *)
  call_ok : nat -> bool;
  world_rank : Z;             (* MPI_Comm_rank(MPI_COMM_WORLD) *)
  world_size : Z;             (* MPI_Comm_size(MPI_COMM_WORLD) *)
  device_count : Z;           (* cudaGetDeviceCount *)
  current_device : Z;         (* cudaGetDevice *)
  rank_tensor_parallel : Z;   (* MPI_Comm_rank(comm_tensor_parallel) *)
  rank_pipeline_parallel : Z; (* MPI_Comm_rank(comm_pipeline_parallel) *)
  read_max_input_len : Z;     (* max_input_len as set by read_start_ids *)
  bcast_random_seed : Z;      (* value received by MPI_Bcast at line 250 *)
  outFile_is_open : bool;     (* outFile.is_open() *)
  output_ids : Z -> Z;        (* content of d_output_ids at the copy, by index *)
  clock : timeval_var -> Z * Z (* gettimeofday: (tv_sec, tv_usec) *)
}.

(** ** Events: the calls the driver makes *)

Inductive event : Type :=
  | MPI_Init
  | srand (seed : Z)
  | cout_error_cant_load (ini_name : string)
  | printf_error_is_half
  | MPI_Finalize
  | MPI_Comm_rank_world
  | MPI_Comm_size_world
  | printf_total_ranks (world_size : Z)
  | cudaGetDeviceCount
  | cudaSetDevice (dev : Z)
  | cudaGetDevice
  | cudaGetDeviceProperties (dev : Z)
  | printf_device
  | printf_running (rank dev : Z)
  | printf_error_world_size
  | printf_error_layers (layers_per_group pipeline_para_size decoder_layers : Z)
  | MPI_Cart_create (dims periods : list Z) (reorder : Z)
  | MPI_Cart_sub (remain_dims : list bool) (c : communicator)
  | MPI_Comm_rank (c : communicator)
  | ncclGetUniqueId (c : communicator)
  | MPI_Bcast_uid (c : communicator)
  | ncclCommInitRank (c : communicator) (nranks rank : Z)
  | read_start_ids (batch end_id beam : Z)
  | deviceMalloc (b : buffer) (count : Z)
  | cudaH2Dcpy (b : buffer) (count : Z)
  | printf_error_total_output_len (total_output_len max_seq_len : Z)
  | create_cublas_handles
  | set_gemm_config (T : precision)
  | ParallelGptWeight_new (hidden_units inter_size vocab_size decoder_layers
                           max_seq_len tensor_para_size tensor_para_rank
                           pipeline_para_size pipeline_para_rank : Z)
  | loadModel (dir : string)
  | MPI_Bcast_random_seed
  | ParallelGpt_new (beam_width head_num size_per_head inter_size
                     decoder_layers vocab_size start_id end_id top_k : Z)
                    (random_seed : option Z)
                    (tensor_para_size tensor_para_rank
                     pipeline_para_size pipeline_para_rank : Z)
  | print_mem_usage
  | cudaDeviceSynchronize
  | MPI_Barrier
  | cudaProfilerStart
  | cudaProfilerStop
  | nvtx_setScope (s : nvtx_scope)
  | nvtx_resetScope
  | PUSH_RANGE (name : string)
  | POP_RANGE
  | gpt_forward (s : nvtx_scope) (output_tensors input_tensors : list Tensor)
  | ofstream_open (fName : string)
  | printf_warning (fName : string)
  | cudaD2Hcpy (b : buffer) (count : Z)
  | cout_writing (outCount : Z)
  | outFile_put (token : Z)
  | outFile_endl
  | printf_token (token : Z)
  | cout_endl
  | cout_zeroCount (zeroCount : Z)
  | gettimeofday (v : timeval_var)
  | printf_info (request_batch_size beam_width head_num size_per_head
                 total_output_len decoder_layers vocab_size : Z)
                (tv_start_value tv_end_value : Z * Z) (ite : Z)
  | ncclCommDestroy (c : communicator).

(** ** The trace-and-halt monad *)

Inductive halt : Type :=
  | exit (status : Z)          (* a call of exit() *)
  | abort (line : nat)         (* a check macro failed at this source line *)
  | undefined (line : nat).    (* undefined behaviour of the expression there *)

Definition M (A : Type) : Type := (list event * (halt + A))%type.

Definition ret {A : Type} (a : A) : M A := ([], inr a).

Definition bind {A B : Type} (m : M A) (f : A -> M B) : M B :=
  match m with
  | (t, inl h) => (t, inl h)
  | (t, inr a) => let r := f a in (t ++ fst r, snd r)
  end.

Definition emit (e : event) : M unit := ([e], inr tt).
Definition stop {A : Type} (h : halt) : M A := ([], inl h).

Notation "x <- m ;; k" := (bind m (fun x => k))
  (at level 61, m at next level, right associativity).
Notation "m ;; k" := (bind m (fun _ => k))
  (at level 61, right associativity).

Definition trace {A : Type} (m : M A) : list event := fst m.
Definition outcome {A : Type} (m : M A) : halt + A := snd m.

(** An arithmetic expression whose evaluation may be undefined. *)
Definition ub (line : nat) (o : option Z) : M Z :=
  match o with
  | Some z => ret z
  | None => stop (undefined line)
  end.

Definition when (c : bool) (m : M unit) : M unit := if c then m else ret tt.

(** Modelled from the spec: the check macros [FT_CHECK], [MPICHECK],
    [NCCLCHECK] and [check_cuda_error] are defined outside this file; the
    spec (sections 4.1, 4.2, 7 and 9) describes them as abort-on-error
    checks: a violated condition or a failed call is fatal. *)
Definition FT_CHECK (line : nat) (cond : bool) : M unit :=
  if cond then ret tt else stop (abort line).

Definition checked (env : Env) (line : nat) (call : event) : M unit :=
  emit call ;; if call_ok env line then ret tt else stop (abort line).

Definition MPICHECK := checked.
Definition NCCLCHECK := checked.
Definition check_cuda_error := checked.

(** ** The driver, [multi_gpu_gpt_example], by source region *)

(** Lines 101-102: the model-shape checks.  [head_num] and [decoder_layers]
    are [size_t], the sizes are [int] and are converted to [size_t] by the
    usual arithmetic conversions. *)
Definition check_model_shape (hp : hyperparameters) : M unit :=
  r1 <- ub 101 (size_rem (head_num hp) (to_size_t (tensor_para_size hp))) ;;
  FT_CHECK 101 (r1 =? 0) ;;
  r2 <- ub 102 (size_rem (decoder_layers hp) (to_size_t (pipeline_para_size hp))) ;;
  FT_CHECK 102 (r2 =? 0).

(** Lines 105-118: rank, world size and device selection. *)
Definition select_device (env : Env) : M unit :=
  MPICHECK env 106 MPI_Comm_rank_world ;;
  MPICHECK env 107 MPI_Comm_size_world ;;
  let rank := world_rank env in
  when (rank =? 0) (emit (printf_total_ranks (world_size env))) ;;
  check_cuda_error env 110 cudaGetDeviceCount ;;
  dev <- ub 111 (int_rem rank (device_count env)) ;;
  check_cuda_error env 111 (cudaSetDevice dev) ;;
  check_cuda_error env 112 cudaGetDevice ;;
  let device := current_device env in
  check_cuda_error env 115 (cudaGetDeviceProperties device) ;;
  emit printf_device ;;
  emit (printf_running rank device).

(** Lines 125-126. *)
Record coordinates : Type := {
  tensor_para_rank : Z;
  pipeline_para_rank : Z
}.

(** Lines 120-134: the partition check and the rank coordinates. *)
Definition rank_coordinates (hp : hyperparameters) (env : Env) : M coordinates :=
  let rank := world_rank env in
  prod <- ub 120 (int_mul (tensor_para_size hp) (pipeline_para_size hp)) ;;
  (if negb (prod =? world_size env)
   then emit printf_error_world_size ;; stop (exit (-1))
   else ret tt) ;;
  tensor_para_rank <- ub 125 (int_rem rank (tensor_para_size hp)) ;;
  pipeline_para_rank <- ub 126 (int_div rank (tensor_para_size hp)) ;;
  quotient <- ub 127 (size_div (decoder_layers hp)
                               (to_size_t (pipeline_para_size hp))) ;;
  let layers_per_group := to_int quotient in
  prod' <- ub 128 (int_mul layers_per_group (pipeline_para_size hp)) ;;
  (if negb (prod' =? to_int (decoder_layers hp))
   then emit (printf_error_layers layers_per_group (pipeline_para_size hp)
                                  (decoder_layers hp)) ;;
        stop (exit (-1))
   else ret tt) ;;
  ret {| tensor_para_rank := tensor_para_rank;
         pipeline_para_rank := pipeline_para_rank |}.

(** Lines 143-178: the 2D grid, its rows and columns, and one NCCL
    communicator for each. *)
Definition form_communicators (hp : hyperparameters) (env : Env)
    (co : coordinates) : M unit :=
  emit (MPI_Cart_create [pipeline_para_size hp; tensor_para_size hp] [0; 0] 0) ;;
  emit (MPI_Cart_sub [false; true] comm_tensor_parallel) ;;
  emit (MPI_Cart_sub [true; false] comm_pipeline_parallel) ;;
  emit (MPI_Comm_rank comm_tensor_parallel) ;;
  emit (MPI_Comm_rank comm_pipeline_parallel) ;;
  when (rank_tensor_parallel env =? 0)
       (NCCLCHECK env 165 (ncclGetUniqueId comm_tensor_parallel)) ;;
  when (rank_pipeline_parallel env =? 0)
       (NCCLCHECK env 169 (ncclGetUniqueId comm_pipeline_parallel)) ;;
  emit (MPI_Bcast_uid comm_tensor_parallel) ;;
  emit (MPI_Bcast_uid comm_pipeline_parallel) ;;
  NCCLCHECK env 176 (ncclCommInitRank comm_tensor_parallel
                       (tensor_para_size hp) (tensor_para_rank co)) ;;
  NCCLCHECK env 177 (ncclCommInitRank comm_pipeline_parallel
                       (pipeline_para_size hp) (pipeline_para_rank co)).

(** The request as the driver holds it after lines 181-212. *)
Record request : Type := {
  input_ids_ptr : pointer;       (* d_input_ids *)
  input_lengths_ptr : pointer;   (* d_input_lengths *)
  max_input_len : Z;             (* int *)
  total_output_len : Z           (* int *)
}.

(** Lines 181-212: the start ids, the input buffers and the length check.
    [deviceMalloc] and [cudaH2Dcpy] are called without a check at the call
    site. *)
Definition prepare_inputs (hp : hyperparameters) (env : Env) : M request :=
  emit (read_start_ids (request_batch_size hp) end_id (beam_width hp)) ;;
  let max_input_len := read_max_input_len env in
  let batch_beam := size_mul (request_batch_size hp) (beam_width hp) in
  ptrs <- (if max_input_len =? 0
           then ret (nullptr, nullptr)
           else
             let count := size_mul batch_beam (to_size_t max_input_len) in
             emit (deviceMalloc d_input_ids count) ;;
             emit (deviceMalloc d_input_lengths batch_beam) ;;
             emit (cudaH2Dcpy d_input_ids count) ;;
             emit (cudaH2Dcpy d_input_lengths batch_beam) ;;
             ret (device d_input_ids, device d_input_lengths)) ;;
  total_output_len <- ub 208 (int_add max_input_len (request_output_len hp)) ;;
  (if total_output_len >? to_int (max_seq_len hp)
   then emit (printf_error_total_output_len total_output_len (max_seq_len hp)) ;;
        stop (exit (-1))
   else ret tt) ;;
  ret {| input_ids_ptr := fst ptrs;
         input_lengths_ptr := snd ptrs;
         max_input_len := max_input_len;
         total_output_len := total_output_len |}.

(** Lines 214-280: handles, weights, the random seed and the engine. *)
Definition build_engine (T : precision) (hp : hyperparameters) (env : Env)
    (co : coordinates) : M unit :=
  let rank := world_rank env in
  emit create_cublas_handles ;;
  emit (set_gemm_config T) ;;
  emit (ParallelGptWeight_new (hidden_units hp) (inter_size hp) (vocab_size hp)
          (decoder_layers hp) (max_seq_len hp)
          (tensor_para_size hp) (tensor_para_rank co)
          (pipeline_para_size hp) (pipeline_para_rank co)) ;;
  emit (loadModel (model_dir hp)) ;;
  when (1 <? world_size env) (MPICHECK env 250 MPI_Bcast_random_seed) ;;
  let random_seed :=
    if rank =? 0 then Some 0
    else if 1 <? world_size env then Some (bcast_random_seed env)
    else None in
  emit (ParallelGpt_new (beam_width hp) (head_num hp) (size_per_head hp)
          (inter_size hp) (decoder_layers hp) (vocab_size hp)
          start_id end_id (top_k hp) random_seed
          (tensor_para_size hp) (tensor_para_rank co)
          (pipeline_para_size hp) (pipeline_para_rank co)).

(** Lines 289-295. *)
Definition input_tensors (hp : hyperparameters) (rq : request) : list Tensor :=
  let batch_beam := size_mul (request_batch_size hp) (beam_width hp) in
  [ {| where_ := MEMORY_GPU; type_ := TYPE_INT32;
       shape := [batch_beam; to_size_t (max_input_len rq)];
       data := input_ids_ptr rq |};
    {| where_ := MEMORY_GPU; type_ := TYPE_INT32;
       shape := [batch_beam];
       data := input_lengths_ptr rq |};
    {| where_ := MEMORY_CPU; type_ := TYPE_INT32;
       shape := [1];
       data := host_int (total_output_len rq) |} ].

(** Lines 297-310. *)
Definition output_tensors (hp : hyperparameters) (rq : request) : list Tensor :=
  [ {| where_ := MEMORY_GPU; type_ := TYPE_INT32;
       shape := [request_batch_size hp; beam_width hp;
                 to_size_t (total_output_len rq)];
       data := device d_output_ids |};
    {| where_ := MEMORY_GPU; type_ := TYPE_INT32;
       shape := [to_size_t (total_output_len rq); request_batch_size hp;
                 beam_width hp];
       data := device d_parent_ids |};
    {| where_ := MEMORY_GPU; type_ := TYPE_INT32;
       shape := [request_batch_size hp; beam_width hp];
       data := device d_sequence_lengths |};
    {| where_ := MEMORY_GPU; type_ := TYPE_FP32;
       shape := [to_size_t (request_output_len hp); request_batch_size hp;
                 beam_width hp];
       data := nullptr |} ].

(** Lines 282-287. *)
Definition allocate_outputs (hp : hyperparameters) (rq : request) : M unit :=
  let batch_beam := size_mul (request_batch_size hp) (beam_width hp) in
  let count := size_mul batch_beam (to_size_t (total_output_len rq)) in
  emit (deviceMalloc d_output_ids count) ;;
  emit (deviceMalloc d_parent_ids count) ;;
  emit (deviceMalloc d_sequence_lengths batch_beam).

(** Lines 323-325 and 373-375: [for (int i = 0; i < ite; ++i) gpt.forward(...)],
    by the number of iterations left.  The event records the NVTX scope the
    call runs in. *)
Fixpoint forward_loop (n : nat) (s : nvtx_scope)
    (outs ins : list Tensor) : M unit :=
  match n with
  | O => ret tt
  | S n' => emit (gpt_forward s outs ins) ;; forward_loop n' s outs ins
  end.

(** Lines 312-330: the warm-up pass.  Returns [ite]. *)
Definition warm_up (outs ins : list Tensor) : M Z :=
  emit print_mem_usage ;;
  emit cudaDeviceSynchronize ;;
  emit MPI_Barrier ;;
  emit cudaProfilerStart ;;
  let ite := 1 in
  emit (nvtx_setScope warmup_time) ;;
  emit (PUSH_RANGE "warmup time") ;;
  forward_loop (Z.to_nat ite) warmup_time outs ins ;;
  emit cudaDeviceSynchronize ;;
  emit MPI_Barrier ;;
  emit POP_RANGE ;;
  emit nvtx_resetScope ;;
  ret ite.

(** Lines 347-358: the body of the write loop at index [i], with [n]
    iterations left; returns [zeroCount]. *)
Fixpoint write_tokens (n : nat) (i : Z) (hBuf : Z -> Z)
    (total_output_len zeroCount : Z) : M Z :=
  match n with
  | O => ret zeroCount
  | S n' =>
      zeroCount' <- (if hBuf i =? 0 then ub 349 (int_add zeroCount 1)
                     else ret zeroCount) ;;
      emit (outFile_put (hBuf i)) ;;
      r <- ub 351 (size_rem (size_add i 1) (to_size_t total_output_len)) ;;
      when (r =? 0) (emit outFile_endl) ;;
      when (i <? 10) (emit (printf_token (hBuf i))) ;;
      when ((r =? 0) && (i <? 10)) (emit cout_endl) ;;
      write_tokens n' (i + 1) hBuf total_output_len zeroCount'
  end.

(** Lines 332-363: the result file, on rank 0. *)
Definition collect_results (hp : hyperparameters) (env : Env)
    (rq : request) : M unit :=
  when (world_rank env =? 0)
    (let fName := "out" in
     emit (ofstream_open fName) ;;
     if negb (outFile_is_open env)
     then emit (printf_warning fName)
     else
       let outCount :=
         size_mul (size_mul (to_size_t (total_output_len rq))
                            (request_batch_size hp))
                  (beam_width hp) in
       emit (cudaD2Hcpy d_output_ids outCount) ;;
       emit (cout_writing outCount) ;;
       zeroCount <- write_tokens (Z.to_nat outCount) 0 (output_ids env)
                                 (total_output_len rq) 0 ;;
       emit cout_endl ;;
       emit (cout_zeroCount zeroCount)).

(** Lines 366-395: the measured pass and the latency report. *)
Definition measure (hp : hyperparameters) (env : Env) (rq : request)
    (ite : Z) (outs ins : list Tensor) : M unit :=
  emit MPI_Barrier ;;
  emit cudaDeviceSynchronize ;;
  emit (gettimeofday tv_start) ;;
  emit (nvtx_setScope total_time) ;;
  emit (PUSH_RANGE "total time") ;;
  forward_loop (Z.to_nat ite) total_time outs ins ;;
  emit cudaDeviceSynchronize ;;
  emit MPI_Barrier ;;
  emit POP_RANGE ;;
  emit nvtx_resetScope ;;
  emit (gettimeofday tv_end) ;;
  emit cudaProfilerStop ;;
  emit (printf_info (request_batch_size hp) (beam_width hp) (head_num hp)
          (size_per_head hp) (total_output_len rq) (decoder_layers hp)
          (vocab_size hp) (clock env tv_start) (clock env tv_end) ite).

(** Lines 397-402. *)
Definition tear_down : M unit :=
  emit (ncclCommDestroy comm_tensor_parallel) ;;
  emit (ncclCommDestroy comm_pipeline_parallel).

(** Lines 101-287: everything before the first pass. *)
Definition start_up (T : precision) (hp : hyperparameters) (env : Env)
    : M request :=
  check_model_shape hp ;;
  select_device env ;;
  co <- rank_coordinates hp env ;;
  form_communicators hp env co ;;
  rq <- prepare_inputs hp env ;;
  build_engine T hp env co ;;
  allocate_outputs hp rq ;;
  ret rq.

(** Lines 312-402: warm-up, result file, measured pass, shutdown. *)
Definition run_passes (hp : hyperparameters) (env : Env) (rq : request)
    : M unit :=
  let ins := input_tensors hp rq in
  let outs := output_tensors hp rq in
  ite <- warm_up outs ins ;;
  collect_results hp env rq ;;
  measure hp env rq ite outs ins ;;
  tear_down.

Definition multi_gpu_gpt_example (T : precision) (reader : INIReader)
    (env : Env) : M unit :=
  let hp := read_hyperparameters reader in
  rq <- start_up T hp env ;;
  run_passes hp env rq.

(** ** Classes of events *)

(** Formation of a communicator group: the 2D grid, its tensor-parallel
    rows and pipeline-parallel columns, and the NCCL communicators. *)
Definition is_communicator_formation (e : event) : bool :=
  match e with
  | MPI_Cart_create _ _ _ | MPI_Cart_sub _ _ | MPI_Comm_rank _
  | ncclGetUniqueId _ | MPI_Bcast_uid _ | ncclCommInitRank _ _ _ => true
  | _ => false
  end.

Definition is_forward (e : event) : bool :=
  match e with gpt_forward _ _ _ => true | _ => false end.

Definition is_forward_in (s : nvtx_scope) (e : event) : bool :=
  match e, s with
  | gpt_forward warmup_time _ _, warmup_time => true
  | gpt_forward total_time _ _, total_time => true
  | _, _ => false
  end.

(** Result collection: the device-to-host copy of the output ids and the
    writes to the result file. *)
Definition is_result_collection (e : event) : bool :=
  match e with
  | cudaD2Hcpy _ _ | outFile_put _ | outFile_endl => true
  | _ => false
  end.

(** Timing: reading the clock around the measured region and reporting the
    latency. *)
Definition is_timing (e : event) : bool :=
  match e with
  | gettimeofday _ | printf_info _ _ _ _ _ _ _ _ _ _ => true
  | _ => false
  end.

Definition is_device_allocation (e : event) : bool :=
  match e with deviceMalloc _ _ => true | _ => false end.

(** A process that ends by [exit] with a non-zero status or by a failed
    check has failed fatally. *)
Definition fatal (h : halt) : bool :=
  match h with
  | exit status => negb (status mod 256 =? 0)
  | abort _ => true
  | undefined _ => false
  end.

(** A sample configuration and environment: a 16-head, 4-layer model on a
    2-by-2 grid, 2 requests, beam width 1, 8 tokens to generate. *)
Module Sample.

Definition section := "ft_instance_hyperparameter".

Definition reader (tensor pipeline heads layers max_seq out_len : Z)
    : INIReader :=
  {| Get := fun s k =>
       if (s =? section)%string && (k =? "model_name")%string then "gpt"
       else if (k =? "model_dir")%string then "models/gpt"
       else "";
     GetInteger := fun s k =>
       if (k =? "max_batch_size")%string then 8
       else if (k =? "max_seq_len")%string then max_seq
       else if (k =? "beam_width")%string then 1
       else if (k =? "top_k")%string then 1
       else if (k =? "tensor_para_size")%string then tensor
       else if (k =? "pipeline_para_size")%string then pipeline
       else if (k =? "head_num")%string then heads
       else if (k =? "size_per_head")%string then 64
       else if (k =? "vocab_size")%string then 50304
       else if (k =? "decoder_layers")%string then layers
       else if (k =? "request_batch_size")%string then 2
       else if (k =? "request_output_len")%string then out_len
       else 0 |}.

Definition env (rank size input_len : Z) (file_opens : bool) : Env :=
  {| call_ok := fun _ => true;
     world_rank := rank;
     world_size := size;
     device_count := 8;
     current_device := rank;
     rank_tensor_parallel := Z.rem rank 2;
     rank_pipeline_parallel := Z.quot rank 2;
     read_max_input_len := input_len;
     bcast_random_seed := 0;
     outFile_is_open := file_opens;
     output_ids := fun i => if i mod 8 =? 0 then 50256 else 0;
     clock := fun v => match v with
                       | tv_start => (100, 250000)
                       | tv_end => (101, 750000)
                       end |}.

End Sample.

(** ** Ordering of events in a trace *)

(** Every [Q] event of [t] has a [P] event somewhere before it. *)
Definition preceded_by (P Q : event -> bool) (t : list event) : Prop :=
  forall pre e post,
    t = pre ++ e :: post -> Q e = true -> existsb P pre = true.

(** No [P] event of [t] comes before a [Q] event. *)
Definition none_before (P Q : event -> bool) (t : list event) : Prop :=
  forall pre e post,
    t = pre ++ e :: post -> Q e = true -> existsb P pre = false.

(** Every [Q] event of [t] has a [P] event somewhere after it. *)
Definition followed_by (P Q : event -> bool) (t : list event) : Prop :=
  forall pre e post,
    t = pre ++ e :: post -> Q e = true -> existsb P post = true.

(** No event of class [P] occurs in [t]. *)
Definition absent (P : event -> bool) (t : list event) : Prop :=
  Forall (fun e => P e = false) t.

(** Events of the start-up region (lines 101-287). *)
Definition is_start_up_event (e : event) : bool :=
  match e with
  | MPI_Comm_rank_world | MPI_Comm_size_world | printf_total_ranks _
  | cudaGetDeviceCount | cudaSetDevice _ | cudaGetDevice
  | cudaGetDeviceProperties _ | printf_device | printf_running _ _
  | printf_error_world_size | printf_error_layers _ _ _
  | MPI_Cart_create _ _ _ | MPI_Cart_sub _ _ | MPI_Comm_rank _
  | ncclGetUniqueId _ | MPI_Bcast_uid _ | ncclCommInitRank _ _ _
  | read_start_ids _ _ _ | deviceMalloc _ _ | cudaH2Dcpy _ _
  | printf_error_total_output_len _ _ | create_cublas_handles
  | set_gemm_config _ | ParallelGptWeight_new _ _ _ _ _ _ _ _ _
  | loadModel _ | MPI_Bcast_random_seed
  | ParallelGpt_new _ _ _ _ _ _ _ _ _ _ _ _ _ _ => true
  | _ => false
  end.

(** Events of the start-up region before the communicators (lines 101-134). *)
Definition is_topology_event (e : event) : bool :=
  match e with
  | MPI_Comm_rank_world | MPI_Comm_size_world | printf_total_ranks _
  | cudaGetDeviceCount | cudaSetDevice _ | cudaGetDevice
  | cudaGetDeviceProperties _ | printf_device | printf_running _ _
  | printf_error_world_size | printf_error_layers _ _ _ => true
  | _ => false
  end.

(** Events of the result-file block (lines 332-363). *)
Definition is_result_file_event (e : event) : bool :=
  match e with
  | ofstream_open _ | printf_warning _ | cudaD2Hcpy _ _ | cout_writing _
  | outFile_put _ | outFile_endl | printf_token _ | cout_endl
  | cout_zeroCount _ => true
  | _ => false
  end.

Definition is_layers_diagnostic (e : event) : bool :=
  match e with printf_error_layers _ _ _ => true | _ => false end.


(** Every way [m] can stop early satisfies [Q]. *)
Definition halts_in {A : Type} (Q : halt -> Prop) (m : M A) : Prop :=
  forall h, outcome m = inl h -> Q h.

(** The ways the source stops on purpose or by undefined behaviour. *)
Definition fatal_or_undefined (h : halt) : Prop :=
  fatal h = true \/ exists line, h = undefined line.



(** Every output tensor handed to a forward call has a non-null data
    pointer. *)
Definition outputs_all_device_resident (t : list event) : Prop :=
  forall s outs ins,
    In (gpt_forward s outs ins) t ->
    Forall (fun x => data x <> nullptr) outs.

(** Events of the measured region: its forward call, the clock readings and
    the latency report. *)
Definition is_measured_pass_event (e : event) : bool :=
  is_forward_in total_time e || is_timing e.

Definition is_latency_report (e : event) : bool :=
  match e with printf_info _ _ _ _ _ _ _ _ _ _ => true | _ => false end.


(** ** The entry point, [main] *)

(** What [INIReader(ini_name)] yields for a file name. *)
Record ini_file : Type := {
  ParseError : Z;
  content : INIReader
}.

Definition default_ini_name : string :=
  "../examples/cpp/multi_gpu_gpt/gpt_config.ini".

(** Lines 44-50.  [argv] includes the program name; [argc] is its length. *)
Definition ini_name (argv : list string) : string :=
  let argc := Z.of_nat (List.length argv) in
  if argc =? 2 then nth 1 argv "" else default_ini_name.

(** Lines 39-69; the value returned is [main]'s return value.  The two
    [return -1] leave before [MPI_Finalize]. *)
Definition main (argv : list string) (open_ini : string -> ini_file)
    (env : Env) : M Z :=
  MPICHECK env 41 MPI_Init ;;
  emit (srand 0) ;;
  let file := open_ini (ini_name argv) in
  let reader := content file in
  if ParseError file <? 0
  then emit (cout_error_cant_load (ini_name argv)) ;; ret (-1)
  else
    let is_half :=
      to_int (GetInteger reader "ft_instance_hyperparameter" "is_half") in
    if is_half =? 0
    then multi_gpu_gpt_example float reader env ;; emit MPI_Finalize ;; ret 0
    else if is_half =? 1
    then multi_gpu_gpt_example half reader env ;; emit MPI_Finalize ;; ret 0
    else emit printf_error_is_half ;; ret (-1).

(** The value of [is_half] that [main] reads from a file. *)
Definition is_half_of (file : ini_file) : Z :=
  to_int (GetInteger (content file) "ft_instance_hyperparameter" "is_half").

Definition is_finalize (e : event) : bool :=
  match e with MPI_Finalize => true | _ => false end.

Definition is_gemm_config (T : precision) (e : event) : bool :=
  match e, T with
  | set_gemm_config float, float | set_gemm_config half, half => true
  | _, _ => false
  end.

(** ** The text of the result file *)

(** The events that write to [outFile]. *)
Definition is_file_write (e : event) : bool :=
  match e with outFile_put _ | outFile_endl => true | _ => false end.

(** The tokens echoed on standard output. *)
Definition is_echo (e : event) : bool :=
  match e with printf_token _ => true | _ => false end.

(** Row [k] of a matrix with rows of [len] tokens: its tokens, then a line
    break. *)
Definition file_row (hBuf : Z -> Z) (len k : nat) : list event :=
  map (fun j => outFile_put (hBuf (Z.of_nat j))) (seq (k * len) len)
  ++ [outFile_endl].

(** What one iteration of the write loop puts into the file. *)
Definition file_item (hBuf : Z -> Z) (L : Z) (j : nat) : list event :=
  outFile_put (hBuf (Z.of_nat j))
  :: (if (Z.of_nat j + 1) mod L =? 0 then [outFile_endl] else []).

(** The number of zero tokens among [hBuf[i .. i+n)]. *)
Definition zeros (hBuf : Z -> Z) (i n : nat) : Z :=
  Z.of_nat (List.length (filter (fun j => hBuf (Z.of_nat j) =? 0) (seq i n))).

Definition is_destroy (e : event) : bool :=
  match e with ncclCommDestroy _ => true | _ => false end.

Definition is_unique_id_of (c : communicator) (e : event) : bool :=
  match e, c with
  | ncclGetUniqueId comm_tensor_parallel, comm_tensor_parallel
  | ncclGetUniqueId comm_pipeline_parallel, comm_pipeline_parallel => true
  | _, _ => false
  end.

(** The rank of this process inside a group, as MPI reports it. *)
Definition local_rank (env : Env) (c : communicator) : Z :=
  match c with
  | comm_tensor_parallel => rank_tensor_parallel env
  | comm_pipeline_parallel => rank_pipeline_parallel env
  end.

(** The [[ERROR]] messages printed before [exit(-1)]. *)
Definition is_exit_diagnostic (e : event) : bool :=
  match e with
  | printf_error_world_size | printf_error_layers _ _ _
  | printf_error_total_output_len _ _ => true
  | _ => false
  end.

(** A computation that ends by [exit] does so with status -1, right after
    printing a diagnostic. *)
Definition exits_after_diagnostic {A : Type} (m : M A) : Prop :=
  forall status,
    outcome m = inl (exit status) ->
    status = (-1) /\
    (exists pre d, trace m = pre ++ [d] /\ is_exit_diagnostic d = true).

(** The random seed handed to the engine's constructor. *)
Definition engine_seed (e : event) : option (option Z) :=
  match e with
  | ParallelGpt_new _ _ _ _ _ _ _ _ _ seed _ _ _ _ => Some seed
  | _ => None
  end.

(** * Facts about the monad *)

Section MonadFacts.

Context {A B : Type}.
Implicit Types (m : M A) (f : A -> M B).

Lemma bind_inl m f t h :
  m = (t, inl h) -> bind m f = (t, inl h).
Proof. intros ->. reflexivity. Qed.

Lemma bind_inr m f t a :
  m = (t, inr a) -> bind m f = (t ++ trace (f a), outcome (f a)).
Proof. intros ->. reflexivity. Qed.

Lemma bind_returns m f t b :
  bind m f = (t, inr b) ->
  exists t1 a t2, m = (t1, inr a) /\ f a = (t2, inr b) /\ t = t1 ++ t2.
Proof.
  destruct m as [t1 [h | a]]; simpl; intros E; [discriminate|].
  destruct (f a) as [t2 r] eqn:Ef. simpl in E.
  injection E as <- ->. exists t1, a, t2. rewrite Ef. auto.
Qed.

Lemma bind_halts m f t h :
  bind m f = (t, inl h) ->
  m = (t, inl h) \/
  exists t1 a t2, m = (t1, inr a) /\ f a = (t2, inl h) /\ t = t1 ++ t2.
Proof.
  destruct m as [t1 [h1 | a]]; simpl; intros E.
  - left. injection E as -> ->. reflexivity.
  - right. destruct (f a) as [t2 r] eqn:Ef. simpl in E.
    injection E as <- ->. exists t1, a, t2. rewrite Ef. auto.
Qed.

Lemma trace_bind_Forall (P : event -> Prop) m f :
  Forall P (trace m) ->
  (forall a, Forall P (trace (f a))) ->
  Forall P (trace (bind m f)).
Proof.
  destruct m as [t1 [h | a]]; simpl; intros H1 H2; [exact H1|].
  apply Forall_app. split; [exact H1 | apply H2].
Qed.

Lemma trace_bind_prefix m f :
  exists t, trace (bind m f) = trace m ++ t.
Proof.
  destruct m as [t1 [h | a]]; simpl.
  - exists []. now rewrite app_nil_r.
  - eexists. reflexivity.
Qed.

End MonadFacts.

Lemma surjective_run {A : Type} (m : M A) : m = (trace m, outcome m).
Proof. destruct m; reflexivity. Qed.

Lemma Forall_emit (P : event -> Prop) e : P e -> Forall P (trace (emit e)).
Proof. intros H. constructor; [exact H | constructor]. Qed.

Lemma Forall_ub (P : event -> Prop) line o : Forall P (trace (ub line o)).
Proof. destruct o; constructor. Qed.

Lemma Forall_FT_CHECK (P : event -> Prop) line c :
  Forall P (trace (FT_CHECK line c)).
Proof. destruct c; constructor. Qed.

Lemma Forall_checked (P : event -> Prop) env line e :
  P e -> Forall P (trace (checked env line e)).
Proof.
  intros H. unfold checked. apply trace_bind_Forall.
  - now apply Forall_emit.
  - intros _. destruct (call_ok env line); constructor.
Qed.

Lemma Forall_forward_loop (P : event -> Prop) n s outs ins :
  P (gpt_forward s outs ins) -> Forall P (trace (forward_loop n s outs ins)).
Proof.
  intros H. induction n as [|n IH].
  - constructor.
  - change (forward_loop (S n) s outs ins)
      with (emit (gpt_forward s outs ins) ;; forward_loop n s outs ins).
    apply trace_bind_Forall; [now apply Forall_emit | intros _; exact IH].
Qed.

(** Discharges [Forall P (trace m)] for a straight-line [m] whose events are
    all in [P] by computation. *)
Ltac trace_Forall :=
  unfold absent, MPICHECK, NCCLCHECK, check_cuda_error, when;
  repeat match goal with
  | |- Forall _ (trace (bind _ _)) => apply trace_bind_Forall; [ | intros ]
  | |- Forall _ (trace (emit _)) => apply Forall_emit; reflexivity
  | |- Forall _ (trace (ret _)) => apply Forall_nil
  | |- Forall _ (trace (stop _)) => apply Forall_nil
  | |- Forall _ (trace (ub _ _)) => apply Forall_ub
  | |- Forall _ (trace (FT_CHECK _ _)) => apply Forall_FT_CHECK
  | |- Forall _ (trace (checked _ _ _)) => apply Forall_checked; reflexivity
  | |- Forall _ (trace (forward_loop _ _ _ _)) =>
      apply Forall_forward_loop; reflexivity
  | |- Forall _ (trace (if ?c then _ else _)) => destruct c
  end.

(** * Facts about lists of events *)

Lemma absent_existsb P t : absent P t -> existsb P t = false.
Proof.
  induction 1 as [|e t He _ IH]; simpl; [reflexivity|].
  now rewrite He, IH.
Qed.

Lemma absent_app P t u : absent P t -> absent P u -> absent P (t ++ u).
Proof. intros H1 H2. apply Forall_app. now split. Qed.

Lemma absent_In P t e : absent P t -> In e t -> P e = false.
Proof. intros H Hin. unfold absent in H. rewrite Forall_forall in H. auto. Qed.

(** A [Q] event of [t ++ u] lies in [u] when [t] has none. *)
Lemma split_after_prefix Q t u pre e post :
  absent Q t -> Q e = true -> t ++ u = pre ++ e :: post ->
  exists u1, pre = t ++ u1 /\ u = u1 ++ e :: post.
Proof.
  intros Ht He. revert pre.
  induction Ht as [|x t Hx _ IH]; intros pre E; simpl in E.
  - exists pre. auto.
  - destruct pre as [|y pre]; simpl in E.
    + injection E as -> _. congruence.
    + injection E as <- E. destruct (IH _ E) as (u1 & -> & ->).
      exists u1. auto.
Qed.

(** A [Q] event of [t ++ u] lies in [t] when [u] has none. *)
Lemma split_before_suffix Q t u pre e post :
  absent Q u -> Q e = true -> t ++ u = pre ++ e :: post ->
  exists t2, t = pre ++ e :: t2 /\ post = t2 ++ u.
Proof.
  intros Hu He. revert pre.
  induction t as [|x t IH]; intros pre E; simpl in E.
  - exfalso. assert (In e u) as Hin by (rewrite E; apply in_elt).
    pose proof (absent_In _ _ _ Hu Hin). congruence.
  - destruct pre as [|y pre]; simpl in E.
    + injection E as -> <-. exists t. auto.
    + injection E as <- E. destruct (IH _ E) as (t2 & -> & ->).
      exists t2. auto.
Qed.


(** * The shape of a run *)

Lemma warm_up_eq outs ins :
  warm_up outs ins =
  ([print_mem_usage; cudaDeviceSynchronize; MPI_Barrier; cudaProfilerStart;
    nvtx_setScope warmup_time; PUSH_RANGE "warmup time";
    gpt_forward warmup_time outs ins;
    cudaDeviceSynchronize; MPI_Barrier; POP_RANGE; nvtx_resetScope],
   inr 1).
Proof. reflexivity. Qed.

Lemma measure_eq hp env rq outs ins :
  measure hp env rq 1 outs ins =
  ([MPI_Barrier; cudaDeviceSynchronize; gettimeofday tv_start;
    nvtx_setScope total_time; PUSH_RANGE "total time";
    gpt_forward total_time outs ins;
    cudaDeviceSynchronize; MPI_Barrier; POP_RANGE; nvtx_resetScope;
    gettimeofday tv_end; cudaProfilerStop;
    printf_info (request_batch_size hp) (beam_width hp) (head_num hp)
      (size_per_head hp) (total_output_len rq) (decoder_layers hp)
      (vocab_size hp) (clock env tv_start) (clock env tv_end) 1],
   inr tt).
Proof. reflexivity. Qed.

Lemma tear_down_eq :
  tear_down = ([ncclCommDestroy comm_tensor_parallel;
                ncclCommDestroy comm_pipeline_parallel], inr tt).
Proof. reflexivity. Qed.

(** The passes: warm-up, then the result file, then (unless the write loop
    ran into undefined behaviour) the measured pass and the shutdown. *)
Lemma run_passes_eq hp env rq :
  let ins := input_tensors hp rq in
  let outs := output_tensors hp rq in
  let c := collect_results hp env rq in
  run_passes hp env rq =
  match outcome c with
  | inl h => (trace (warm_up outs ins) ++ trace c, inl h)
  | inr _ => (trace (warm_up outs ins) ++ trace c ++
              trace (measure hp env rq 1 outs ins) ++ trace tear_down,
              inr tt)
  end.
Proof.
  intros ins outs c. unfold run_passes. fold ins outs c.
  rewrite (bind_inr _ _ _ _ (warm_up_eq outs ins)).
  destruct c as [tc [h | []]] eqn:Ec; simpl outcome.
  - reflexivity.
  - unfold trace at 2. cbn [fst snd bind outcome trace].
    rewrite measure_eq, tear_down_eq. reflexivity.
Qed.

(** A run is a failed start-up, or a start-up followed by the passes. *)
Lemma example_cases T reader env :
  let hp := read_hyperparameters reader in
  (exists t h, start_up T hp env = (t, inl h) /\
               multi_gpu_gpt_example T reader env = (t, inl h)) \/
  (exists t rq, start_up T hp env = (t, inr rq) /\
                multi_gpu_gpt_example T reader env =
                (t ++ trace (run_passes hp env rq),
                 outcome (run_passes hp env rq))).
Proof.
  intros hp. unfold multi_gpu_gpt_example. fold hp.
  destruct (start_up T hp env) as [t [h | rq]] eqn:E.
  - left. exists t, h. split; [reflexivity|]. reflexivity.
  - right. exists t, rq. split; [reflexivity|]. reflexivity.
Qed.

(** ** Classes of the events of each region *)

Lemma check_model_shape_silent hp : trace (check_model_shape hp) = [].
Proof.
  unfold check_model_shape.
  destruct (size_rem (head_num hp) _) as [r1|]; [|reflexivity].
  cbn. destruct (r1 =? 0); [|reflexivity].
  cbn. destruct (size_rem (decoder_layers hp) _) as [r2|]; [|reflexivity].
  cbn. destruct (r2 =? 0); reflexivity.
Qed.

Lemma select_device_topology env :
  Forall (fun e => is_topology_event e = true) (trace (select_device env)).
Proof. unfold select_device. trace_Forall. Qed.

Lemma rank_coordinates_topology hp env :
  Forall (fun e => is_topology_event e = true) (trace (rank_coordinates hp env)).
Proof. unfold rank_coordinates. trace_Forall. Qed.

Lemma start_up_events T hp env :
  Forall (fun e => is_start_up_event e = true) (trace (start_up T hp env)).
Proof.
  unfold start_up, check_model_shape, select_device, rank_coordinates,
    form_communicators, prepare_inputs, build_engine, allocate_outputs.
  trace_Forall.
Qed.

Lemma write_tokens_events n : forall i hBuf total zc,
  Forall (fun e => is_result_file_event e = true)
         (trace (write_tokens n i hBuf total zc)).
Proof.
  induction n as [|n IH]; intros i hBuf total zc.
  - constructor.
  - change (write_tokens (S n) i hBuf total zc) with
      (zeroCount' <- (if hBuf i =? 0 then ub 349 (int_add zc 1) else ret zc) ;;
       emit (outFile_put (hBuf i)) ;;
       r <- ub 351 (size_rem (size_add i 1) (to_size_t total)) ;;
       when (r =? 0) (emit outFile_endl) ;;
       when (i <? 10) (emit (printf_token (hBuf i))) ;;
       when ((r =? 0) && (i <? 10)) (emit cout_endl) ;;
       write_tokens n (i + 1) hBuf total zeroCount').
    trace_Forall. apply IH.
Qed.

Lemma collect_results_events hp env rq :
  Forall (fun e => is_result_file_event e = true)
         (trace (collect_results hp env rq)).
Proof.
  unfold collect_results. trace_Forall. apply write_tokens_events.
Qed.

Lemma run_passes_events hp env rq :
  Forall (fun e => is_start_up_event e = false)
         (trace (run_passes hp env rq)).
Proof.
  pose proof (collect_results_events hp env rq) as Hc.
  assert (Forall (fun e => is_start_up_event e = false)
                 (trace (collect_results hp env rq))) as Hc'.
  { eapply Forall_impl; [|exact Hc]. intros [] He; simpl in *; congruence. }
  rewrite run_passes_eq. cbv zeta.
  rewrite warm_up_eq, measure_eq, tear_down_eq.
  destruct (outcome (collect_results hp env rq)); cbn [trace fst];
    repeat (apply Forall_app; split); try exact Hc';
    repeat constructor.
Qed.

(** Classes that exclude every start-up event are absent from a start-up
    trace. *)
Lemma start_up_absent P T hp env :
  (forall e, is_start_up_event e = true -> P e = false) ->
  absent P (trace (start_up T hp env)).
Proof.
  intros H. eapply Forall_impl; [|apply start_up_events]. exact H.
Qed.

(** ** What a region that returns has established *)

Lemma check_model_shape_returns hp t :
  check_model_shape hp = (t, inr tt) ->
  size_rem (head_num hp) (to_size_t (tensor_para_size hp)) = Some 0 /\
  size_rem (decoder_layers hp) (to_size_t (pipeline_para_size hp)) = Some 0.
Proof.
  unfold check_model_shape.
  destruct (size_rem (head_num hp) _) as [r1|]; [|discriminate].
  cbn. destruct (r1 =? 0) eqn:E1; [|discriminate].
  cbn. destruct (size_rem (decoder_layers hp) _) as [r2|]; [|discriminate].
  cbn. destruct (r2 =? 0) eqn:E2; [|discriminate].
  intros _. apply Z.eqb_eq in E1, E2. subst. auto.
Qed.

Lemma check_model_shape_halts hp t h :
  check_model_shape hp = (t, inl h) ->
  t = [] /\ (h = undefined 101 \/ h = abort 101 \/
             h = undefined 102 \/ h = abort 102).
Proof.
  unfold check_model_shape.
  destruct (size_rem (head_num hp) _) as [r1|];
    [|cbn; intros E; injection E as <- <-; auto].
  cbn. destruct (r1 =? 0); [|cbn; intros E; injection E as <- <-; auto].
  cbn. destruct (size_rem (decoder_layers hp) _) as [r2|];
    [|cbn; intros E; injection E as <- <-; auto 6].
  cbn. destruct (r2 =? 0); cbn; intros E; [discriminate|].
  injection E as <- <-; auto 6.
Qed.

Lemma rank_coordinates_returns hp env t co :
  rank_coordinates hp env = (t, inr co) ->
  t = [] /\
  int_mul (tensor_para_size hp) (pipeline_para_size hp) = Some (world_size env) /\
  int_rem (world_rank env) (tensor_para_size hp) = Some (tensor_para_rank co) /\
  int_div (world_rank env) (tensor_para_size hp) = Some (pipeline_para_rank co).
Proof.
  unfold rank_coordinates.
  destruct (int_mul (tensor_para_size hp) _) as [prod|]; [|discriminate].
  cbn. destruct (prod =? world_size env) eqn:Ew; [|discriminate].
  cbn. destruct (int_rem _ _) as [tr|]; [|discriminate].
  cbn. destruct (int_div _ _) as [pr|]; [|discriminate].
  cbn. destruct (size_div _ _) as [q|]; [|discriminate].
  cbn. destruct (int_mul (to_int q) _) as [prod'|]; [|discriminate].
  cbn. destruct (prod' =? _); [|discriminate].
  cbn. intros E. injection E as <- <-. apply Z.eqb_eq in Ew. subst. auto.
Qed.

Lemma allocate_outputs_eq hp rq :
  allocate_outputs hp rq =
  (let batch_beam := size_mul (request_batch_size hp) (beam_width hp) in
   let count := size_mul batch_beam (to_size_t (total_output_len rq)) in
   [deviceMalloc d_output_ids count; deviceMalloc d_parent_ids count;
    deviceMalloc d_sequence_lengths batch_beam], inr tt).
Proof. reflexivity. Qed.

(** The events of lines 202-205. *)
Lemma prepare_inputs_returns hp env t rq :
  prepare_inputs hp env = (t, inr rq) ->
  let batch_beam := size_mul (request_batch_size hp) (beam_width hp) in
  let count := size_mul batch_beam (to_size_t (read_max_input_len env)) in
  max_input_len rq = read_max_input_len env /\
  int_add (read_max_input_len env) (request_output_len hp)
    = Some (total_output_len rq) /\
  total_output_len rq <= to_int (max_seq_len hp) /\
  ((read_max_input_len env = 0 /\
    input_ids_ptr rq = nullptr /\ input_lengths_ptr rq = nullptr /\
    t = [read_start_ids (request_batch_size hp) end_id (beam_width hp)]) \/
   (read_max_input_len env <> 0 /\
    input_ids_ptr rq = device d_input_ids /\
    input_lengths_ptr rq = device d_input_lengths /\
    t = [read_start_ids (request_batch_size hp) end_id (beam_width hp);
         deviceMalloc d_input_ids count;
         deviceMalloc d_input_lengths batch_beam;
         cudaH2Dcpy d_input_ids count;
         cudaH2Dcpy d_input_lengths batch_beam])).
Proof.
  unfold prepare_inputs.
  destruct (read_max_input_len env =? 0) eqn:E0; cbn;
    (destruct (int_add _ _) as [total|]; [|discriminate]);
    cbn; (destruct (total >? _) eqn:Et; [discriminate|]);
    cbn; intros E; injection E as <- <-; cbn;
    pose proof (Zgt_cases total (to_int (max_seq_len hp))) as Hle;
    rewrite Et in Hle.
  - apply Z.eqb_eq in E0. repeat split; auto; lia.
  - apply Z.eqb_neq in E0. repeat split; auto 7; lia.
Qed.

Lemma start_up_returns T hp env t rq :
  start_up T hp env = (t, inr rq) ->
  exists t2 co t4 t5 t6,
    check_model_shape hp = ([], inr tt) /\
    select_device env = (t2, inr tt) /\
    rank_coordinates hp env = ([], inr co) /\
    form_communicators hp env co = (t4, inr tt) /\
    prepare_inputs hp env = (t5, inr rq) /\
    build_engine T hp env co = (t6, inr tt) /\
    t = t2 ++ t4 ++ t5 ++ t6 ++ trace (allocate_outputs hp rq).
Proof.
  unfold start_up. intros E.
  apply bind_returns in E as (t1 & [] & r1 & E1 & E & ->).
  apply bind_returns in E as (t2 & [] & r2 & E2 & E & ->).
  apply bind_returns in E as (t3 & co & r3 & E3 & E & ->).
  apply bind_returns in E as (t4 & [] & r4 & E4 & E & ->).
  apply bind_returns in E as (t5 & rq' & r5 & E5 & E & ->).
  apply bind_returns in E as (t6 & [] & r6 & E6 & E & ->).
  apply bind_returns in E as (t7 & [] & r7 & E7 & E & ->).
  injection E as <- ->.
  pose proof (check_model_shape_silent hp) as H1. rewrite E1 in H1.
  simpl in H1. subst t1.
  destruct (rank_coordinates_returns _ _ _ _ E3) as (-> & _).
  exists t2, co, t4, t5, t6. rewrite E7. cbn [trace fst].
  rewrite app_nil_r. simpl. auto 10.
Qed.

(** * Integer conversions *)

Lemma to_int_range z : INT_MIN <= to_int z <= INT_MAX.
Proof.
  unfold to_int, INT_MIN, INT_MAX, UINT_MODULUS.
  pose proof (Z.mod_pos_bound (z - -2147483648) 4294967296 eq_refl). lia.
Qed.

Lemma to_size_t_range z : 0 <= to_size_t z < SIZE_MODULUS.
Proof. unfold to_size_t, SIZE_MODULUS. apply Z.mod_pos_bound. reflexivity. Qed.

Lemma to_int_id z : INT_MIN <= z <= INT_MAX -> to_int z = z.
Proof.
  unfold to_int, INT_MIN, INT_MAX, UINT_MODULUS. intros H.
  rewrite Z.mod_small; lia.
Qed.

Lemma to_size_t_id z : 0 <= z < SIZE_MODULUS -> to_size_t z = z.
Proof. unfold to_size_t. intros H. now apply Z.mod_small. Qed.

Lemma to_int_le z : 0 <= z -> to_int z <= z.
Proof.
  unfold to_int, INT_MIN, UINT_MODULUS. intros H.
  pose proof (Z.mod_le (z - -2147483648) 4294967296). lia.
Qed.

Lemma hyperparameters_ranges reader :
  let hp := read_hyperparameters reader in
  (INT_MIN <= tensor_para_size hp <= INT_MAX) /\
  (INT_MIN <= pipeline_para_size hp <= INT_MAX) /\
  (INT_MIN <= request_output_len hp <= INT_MAX) /\
  (0 <= head_num hp < SIZE_MODULUS) /\
  (0 <= decoder_layers hp < SIZE_MODULUS) /\
  (0 <= max_seq_len hp < SIZE_MODULUS) /\
  (0 <= request_batch_size hp < SIZE_MODULUS) /\
  (0 <= beam_width hp < SIZE_MODULUS).
Proof.
  cbn. repeat split; try apply to_int_range; try apply to_size_t_range.
Qed.

(** A positive [int] keeps its value as a [size_t] divisor. *)
Lemma size_rem_positive_int a b :
  0 < b <= INT_MAX -> size_rem a (to_size_t b) = Some (a mod b).
Proof.
  intros H. rewrite to_size_t_id by (unfold INT_MAX, SIZE_MODULUS in *; lia).
  unfold size_rem. destruct (b =? 0) eqn:E; [|reflexivity].
  apply Z.eqb_eq in E. lia.
Qed.

Lemma int_rem_positive a b : 0 < b -> int_rem a b = Some (Z.rem a b).
Proof.
  intros H. unfold int_rem.
  replace (b =? 0) with false by (symmetry; apply Z.eqb_neq; lia).
  replace (b =? -1) with false by (symmetry; apply Z.eqb_neq; lia).
  now rewrite andb_false_r.
Qed.

Lemma int_div_positive a b : 0 < b -> int_div a b = Some (Z.quot a b).
Proof.
  intros H. unfold int_div.
  replace (b =? 0) with false by (symmetry; apply Z.eqb_neq; lia).
  replace (b =? -1) with false by (symmetry; apply Z.eqb_neq; lia).
  now rewrite andb_false_r.
Qed.

Lemma int_add_in_range a b :
  INT_MIN <= a + b <= INT_MAX -> int_add a b = Some (a + b).
Proof.
  intros H. unfold int_add, in_int.
  replace (INT_MIN <=? a + b) with true by (symmetry; apply Z.leb_le; lia).
  replace (a + b <=? INT_MAX) with true by (symmetry; apply Z.leb_le; lia).
  reflexivity.
Qed.


(** A non-zero [int] is a non-zero [size_t]. *)
Lemma to_size_t_nonzero z :
  INT_MIN <= z <= INT_MAX -> z <> 0 -> to_size_t z <> 0.
Proof.
  unfold to_size_t, INT_MIN, INT_MAX, SIZE_MODULUS. intros Hr Hz E.
  apply Z.mod_divide in E; [|lia]. destruct E as (k & Hk). lia.
Qed.

(** * How a start-up can stop *)

Lemma fatal_abort line : fatal (abort line) = true.
Proof. reflexivity. Qed.

Lemma fatal_exit_minus_one : fatal (exit (-1)) = true.
Proof. reflexivity. Qed.


Lemma checked_halts env line e t h :
  checked env line e = (t, inl h) -> h = abort line.
Proof.
  unfold checked. cbn. destruct (call_ok env line); cbn; intros E;
    [discriminate | now injection E as _ <-].
Qed.

Lemma select_device_halts env t h :
  select_device env = (t, inl h) ->
  h = undefined 111 \/ exists line, h = abort line.
Proof.
  unfold select_device, MPICHECK, check_cuda_error, checked, when.
  destruct (call_ok env 106); cbn; [|intros E; injection E as _ <-; eauto].
  destruct (call_ok env 107); cbn; [|intros E; injection E as _ <-; eauto].
  destruct (world_rank env =? 0); cbn;
    (destruct (call_ok env 110); cbn; [|intros E; injection E as _ <-; eauto]);
    (destruct (int_rem _ _); cbn; [|intros E; injection E as _ <-; eauto]);
    (destruct (call_ok env 111); cbn; [|intros E; injection E as _ <-; eauto]);
    (destruct (call_ok env 112); cbn; [|intros E; injection E as _ <-; eauto]);
    (destruct (call_ok env 115); cbn; [|intros E; injection E as _ <-; eauto]);
    discriminate.
Qed.





Lemma example_start_up_halts T reader env t h :
  start_up T (read_hyperparameters reader) env = (t, inl h) ->
  multi_gpu_gpt_example T reader env = (t, inl h).
Proof. intros E. unfold multi_gpu_gpt_example. now rewrite E. Qed.

Lemma start_up_shape_halts T hp env t h :
  check_model_shape hp = (t, inl h) -> start_up T hp env = (t, inl h).
Proof. intros E. unfold start_up. now rewrite E. Qed.

Lemma check_model_shape_head hp :
  0 < tensor_para_size hp <= INT_MAX ->
  head_num hp mod tensor_para_size hp <> 0 ->
  check_model_shape hp = ([], inl (abort 101)).
Proof.
  intros Ht Hne. unfold check_model_shape.
  rewrite size_rem_positive_int by exact Ht.
  apply Z.eqb_neq in Hne. cbn. now rewrite Hne.
Qed.

Lemma check_model_shape_layers hp :
  to_size_t (tensor_para_size hp) <> 0 ->
  0 < pipeline_para_size hp <= INT_MAX ->
  decoder_layers hp mod pipeline_para_size hp <> 0 ->
  check_model_shape hp = ([], inl (abort 101)) \/
  check_model_shape hp = ([], inl (abort 102)).
Proof.
  intros Ht Hp Hne. unfold check_model_shape.
  rewrite (size_rem_positive_int (decoder_layers hp)) by exact Hp.
  unfold size_rem. apply Z.eqb_neq in Ht, Hne. rewrite Ht.
  cbn [ub bind ret fst snd app].
  destruct (head_num hp mod _ =? 0);
    cbn [FT_CHECK ub bind ret stop fst snd app]; [|auto].
  rewrite Hne. cbn. auto.
Qed.

(** * The start-up checks *)




(** C6. When [head_num] is not divisible by a (positive) [tensor_para_size],
    the run ends at the assertion of line 101: it is fatal, and nothing at
    all, in particular no communicator formation, has happened before. *)
Theorem head_num_not_divisible_is_fatal T reader env :
  let hp := read_hyperparameters reader in
  let r := multi_gpu_gpt_example T reader env in
  0 < tensor_para_size hp ->
  ~ (tensor_para_size hp | head_num hp) ->
  r = ([], inl (abort 101)) /\
  fatal (abort 101) = true /\
  absent is_communicator_formation (trace r).
Proof.
  intros hp r Hpos Hnd.
  assert (r = ([], inl (abort 101))) as Er.
  { apply example_start_up_halts, start_up_shape_halts.
    pose proof (hyperparameters_ranges reader) as Hr.
    cbv zeta in Hr. fold hp in Hr. destruct Hr as (Ht & _).
    apply check_model_shape_head; fold hp; [lia|].
    intros E. apply Hnd. apply Z.mod_divide; [lia | exact E]. }
  rewrite Er. repeat split. constructor.
Qed.

Lemma head_num_not_divisible_is_fatal_witness :
  multi_gpu_gpt_example float (Sample.reader 3 2 16 4 16 8)
                        (Sample.env 0 6 0 true) = ([], inl (abort 101)).
Proof.
  apply (head_num_not_divisible_is_fatal float (Sample.reader 3 2 16 4 16 8)
           (Sample.env 0 6 0 true)).
  - vm_compute. reflexivity.
  - intros [q Hq]. assert (16 = q * 3) as Hq' by exact Hq. lia.
Defined.

(** C7, as stated, fails: with [decoder_layers = 5] and
    [pipeline_para_size = 2] the run stops at the assertion of line 102 with
    an empty trace; the layers-per-group diagnostic of line 129 is not
    printed. *)
Lemma layers_diagnostic_not_printed :
  let reader := Sample.reader 2 2 16 5 16 8 in
  let hp := read_hyperparameters reader in
  let r := multi_gpu_gpt_example float reader (Sample.env 0 4 0 true) in
  ~ (pipeline_para_size hp | decoder_layers hp) /\
  r = ([], inl (abort 102)) /\
  existsb is_layers_diagnostic (trace r) = false.
Proof.
  cbv zeta. split; [|split].
  - intros [q Hq]. assert (5 = q * 2) as Hq' by exact Hq. lia.
  - vm_compute. reflexivity.
  - vm_compute. reflexivity.
Qed.

(** C7, amended.  For a non-zero [tensor_para_size]: when [decoder_layers]
    is not divisible by a (positive) [pipeline_para_size], the run ends
    fatally at one of the model-shape assertions of lines 101-102, before
    any other action; the layers-per-group diagnostic is not printed. *)
Theorem layers_not_divisible_is_fatal T reader env :
  let hp := read_hyperparameters reader in
  let r := multi_gpu_gpt_example T reader env in
  tensor_para_size hp <> 0 ->
  0 < pipeline_para_size hp ->
  ~ (pipeline_para_size hp | decoder_layers hp) ->
  (r = ([], inl (abort 101)) \/ r = ([], inl (abort 102))) /\
  (forall h, outcome r = inl h -> fatal h = true) /\
  absent is_layers_diagnostic (trace r).
Proof.
  intros hp r Ht Hpos Hnd.
  pose proof (hyperparameters_ranges reader) as Hr.
  cbv zeta in Hr. fold hp in Hr. destruct Hr as (Htr & Hp & _).
  assert (check_model_shape hp = ([], inl (abort 101)) \/
          check_model_shape hp = ([], inl (abort 102))) as Hc.
  { apply check_model_shape_layers; [now apply to_size_t_nonzero | lia |].
    intros E. apply Hnd. apply Z.mod_divide; [lia | exact E]. }
  assert (r = ([], inl (abort 101)) \/ r = ([], inl (abort 102))) as Hr'.
  { destruct Hc as [Ec | Ec]; [left | right];
      apply example_start_up_halts, start_up_shape_halts; exact Ec. }
  split; [exact Hr'|].
  destruct Hr' as [-> | ->]; split; try constructor;
    cbn; intros h E; injection E as <-; reflexivity.
Qed.

Lemma layers_not_divisible_is_fatal_witness :
  multi_gpu_gpt_example float (Sample.reader 2 3 16 4 16 8)
                        (Sample.env 1 6 0 true) = ([], inl (abort 101)) \/
  multi_gpu_gpt_example float (Sample.reader 2 3 16 4 16 8)
                        (Sample.env 1 6 0 true) = ([], inl (abort 102)).
Proof.
  apply (layers_not_divisible_is_fatal float (Sample.reader 2 3 16 4 16 8)
           (Sample.env 1 6 0 true)).
  - vm_compute. discriminate.
  - vm_compute. reflexivity.
  - intros [q Hq]. assert (4 = q * 3) as Hq' by exact Hq. lia.
Defined.

(** * The rank grid *)

Lemma grid_coordinates_in_range t p r :
  0 < t -> 0 <= r < t * p -> 0 <= r mod t < t /\ 0 <= r / t < p.
Proof.
  intros Ht Hr. split.
  - apply Z.mod_pos_bound. exact Ht.
  - split.
    + apply Z.div_pos; lia.
    + apply Z.div_lt_upper_bound; lia.
Qed.

Lemma grid_coordinates_injective t r1 r2 :
  0 < t -> r1 mod t = r2 mod t -> r1 / t = r2 / t -> r1 = r2.
Proof.
  intros Ht Hm Hd.
  rewrite (Z.div_mod r1 t), (Z.div_mod r2 t) by lia. now rewrite Hm, Hd.
Qed.

Lemma grid_coordinates_surjective t p a b :
  0 < t -> 0 <= a < t -> 0 <= b < p ->
  0 <= a + b * t < t * p /\ (a + b * t) mod t = a /\ (a + b * t) / t = b.
Proof.
  intros Ht Ha Hb. split; [nia|]. split.
  - rewrite Z_mod_plus_full. now apply Z.mod_small.
  - rewrite Z_div_plus_full by lia. rewrite Z.div_small by lia. lia.
Qed.

(** C4. On a [pipeline_size]-by-[tensor_size] grid with
    [tensor_size * pipeline_size = world_size], lines 125-126 give rank [r]
    the coordinates [(r % tensor_size, r / tensor_size)]; they lie in the
    grid, distinct ranks get distinct coordinates, every grid position is
    the coordinates of a rank, and [rank_coordinates] returns exactly these;
    on the 2-by-2 grid rank 2 gets (0, 1). *)
Theorem rank_coordinates_cover_grid (t p w : Z) :
  0 < t -> t * p = w ->
  (forall r, 0 <= r < w ->
     int_rem r t = Some (r mod t) /\ int_div r t = Some (r / t) /\
     0 <= r mod t < t /\ 0 <= r / t < p) /\
  (forall r1 r2, 0 <= r1 < w -> 0 <= r2 < w ->
     int_rem r1 t = int_rem r2 t -> int_div r1 t = int_div r2 t -> r1 = r2) /\
  (forall a b, 0 <= a < t -> 0 <= b < p ->
     exists r, 0 <= r < w /\ int_rem r t = Some a /\ int_div r t = Some b) /\
  (forall hp env co,
     tensor_para_size hp = t ->
     outcome (rank_coordinates hp env) = inr co ->
     int_rem (world_rank env) t = Some (tensor_para_rank co) /\
     int_div (world_rank env) t = Some (pipeline_para_rank co)) /\
  rank_coordinates (read_hyperparameters (Sample.reader 2 2 16 4 16 8))
                   (Sample.env 2 4 0 true)
  = ([], inr {| tensor_para_rank := 0; pipeline_para_rank := 1 |}).
Proof.
  intros Ht <-.
  assert (forall r, 0 <= r ->
            int_rem r t = Some (r mod t) /\ int_div r t = Some (r / t)) as Hc.
  { intros r Hr. rewrite int_rem_positive, int_div_positive by exact Ht.
    rewrite Z.rem_mod_nonneg, Z.quot_div_nonneg by lia. auto. }
  split; [|split; [|split; [|split]]].
  - intros r Hr. destruct (Hc r) as (-> & ->); [lia|].
    destruct (grid_coordinates_in_range t p r Ht Hr). auto.
  - intros r1 r2 H1 H2 Hm Hd.
    destruct (Hc r1) as (E1 & E1'); [lia|].
    destruct (Hc r2) as (E2 & E2'); [lia|].
    rewrite E1, E2 in Hm. rewrite E1', E2' in Hd.
    injection Hm as Hm. injection Hd as Hd.
    now apply (grid_coordinates_injective t).
  - intros a b Ha Hb.
    destruct (grid_coordinates_surjective t p a b Ht Ha Hb) as (Hr & Hm & Hd).
    exists (a + b * t). split; [exact Hr|].
    destruct (Hc (a + b * t)) as (-> & ->); [lia|]. now rewrite Hm, Hd.
  - intros hp env co <- E.
    destruct (rank_coordinates_returns hp env (trace (rank_coordinates hp env)) co)
      as (_ & _ & H1 & H2).
    + rewrite <- E. apply surjective_run.
    + auto.
  - vm_compute. reflexivity.
Qed.

Lemma rank_coordinates_cover_grid_witness :
  int_rem 2 2 = Some 0 /\ int_div 2 2 = Some 1.
Proof.
  destruct (rank_coordinates_cover_grid 2 2 4) as (H & _).
  - lia.
  - reflexivity.
  - destruct (H 2) as (H1 & H2 & _); [lia|].
    split; [exact H1 | exact H2].
Defined.

(** * How a run can stop *)

Section HaltsIn.

Context {A B : Type} (Q : halt -> Prop).

Lemma halts_in_bind (m : M A) (f : A -> M B) :
  halts_in Q m -> (forall a, halts_in Q (f a)) -> halts_in Q (bind m f).
Proof.
  intros Hm Hf h. destruct m as [t [h' | a]]; cbn.
  - intros E. injection E as <-. now apply Hm.
  - apply Hf.
Qed.

Lemma halts_in_ret (a : A) : halts_in Q (ret a).
Proof. intros h E. discriminate. Qed.

Lemma halts_in_stop h : Q h -> halts_in Q (@stop A h).
Proof. intros H h' E. now injection E as <-. Qed.

End HaltsIn.

Lemma halts_in_emit Q e : halts_in Q (emit e).
Proof. intros h E. discriminate. Qed.

Lemma halts_in_ub Q line o : Q (undefined line) -> halts_in Q (ub line o).
Proof. intros H. destruct o; [apply halts_in_ret | now apply halts_in_stop]. Qed.

Lemma halts_in_FT_CHECK Q line c : Q (abort line) -> halts_in Q (FT_CHECK line c).
Proof. intros H. destruct c; [apply halts_in_ret | now apply halts_in_stop]. Qed.

Lemma halts_in_checked Q env line e :
  Q (abort line) -> halts_in Q (checked env line e).
Proof.
  intros H. unfold checked. apply halts_in_bind; [apply halts_in_emit|].
  intros _. destruct (call_ok env line);
    [apply halts_in_ret | now apply halts_in_stop].
Qed.

Lemma fatal_or_undefined_abort line : fatal_or_undefined (abort line).
Proof. left. reflexivity. Qed.

Lemma fatal_or_undefined_undefined line : fatal_or_undefined (undefined line).
Proof. right. eauto. Qed.

Lemma fatal_or_undefined_exit : fatal_or_undefined (exit (-1)).
Proof. left. reflexivity. Qed.

Ltac halts_auto :=
  unfold MPICHECK, NCCLCHECK, check_cuda_error, when;
  repeat match goal with
  | |- halts_in _ (bind _ _) => apply halts_in_bind; [ | intros ]
  | |- halts_in _ (emit _) => apply halts_in_emit
  | |- halts_in _ (ret _) => apply halts_in_ret
  | |- halts_in _ (stop (exit _)) =>
      apply halts_in_stop, fatal_or_undefined_exit
  | |- halts_in _ (ub _ _) =>
      apply halts_in_ub, fatal_or_undefined_undefined
  | |- halts_in _ (FT_CHECK _ _) =>
      apply halts_in_FT_CHECK, fatal_or_undefined_abort
  | |- halts_in _ (checked _ _ _) =>
      apply halts_in_checked, fatal_or_undefined_abort
  | |- halts_in _ (if ?c then _ else _) => destruct c
  end.

(** The start-up stops only by a failed check, by [exit(-1)] or by
    undefined behaviour. *)
Lemma start_up_halts T hp env : halts_in fatal_or_undefined (start_up T hp env).
Proof.
  unfold start_up, check_model_shape, select_device, rank_coordinates,
    form_communicators, prepare_inputs, build_engine, allocate_outputs.
  halts_auto.
Qed.





(** * Where the forward calls sit *)

Lemma start_up_no_forward T hp env :
  absent is_forward (trace (start_up T hp env)).
Proof. apply start_up_absent. intros []; simpl; congruence. Qed.

(** Every forward call of a run comes after a start-up that returned, and
    is made on the tensors of lines 289-310. *)
Lemma forward_split T reader env pre s outs ins post :
  let hp := read_hyperparameters reader in
  trace (multi_gpu_gpt_example T reader env)
    = pre ++ gpt_forward s outs ins :: post ->
  exists t rq u,
    start_up T hp env = (t, inr rq) /\
    pre = t ++ u /\
    trace (run_passes hp env rq) = u ++ gpt_forward s outs ins :: post /\
    outs = output_tensors hp rq /\ ins = input_tensors hp rq.
Proof.
  intros hp E.
  destruct (example_cases T reader env) as [(t & h & Es & Er) | (t & rq & Es & Er)];
    fold hp in Es; rewrite Er in E; cbn [trace fst] in E.
  - exfalso. pose proof (start_up_no_forward T hp env) as Ha.
    rewrite Es in Ha. cbn in Ha.
    assert (In (gpt_forward s outs ins) t) as Hin by (rewrite E; apply in_elt).
    pose proof (absent_In _ _ _ Ha Hin). discriminate.
  - pose proof (start_up_no_forward T hp env) as Ha.
    rewrite Es in Ha. cbn [trace fst] in Ha.
    fold hp in E.
    destruct (split_after_prefix is_forward t _ pre (gpt_forward s outs ins)
                post Ha eq_refl E) as (u & -> & Eu).
    exists t, rq, u. split; [exact Es|]. split; [reflexivity|].
    split; [exact Eu|].
    assert (In (gpt_forward s outs ins) (trace (run_passes hp env rq))) as Hin
      by (rewrite Eu; apply in_elt).
    pose proof (collect_results_events hp env rq) as Hc.
    rewrite run_passes_eq in Hin. cbv zeta in Hin.
    rewrite warm_up_eq, measure_eq, tear_down_eq in Hin.
    assert (forall x, In x (trace (collect_results hp env rq)) ->
                      x <> gpt_forward s outs ins) as Hnc.
    { intros x Hx ->. rewrite Forall_forall in Hc. now specialize (Hc _ Hx). }
    destruct (outcome (collect_results hp env rq)); cbn [trace fst] in Hin;
      repeat (rewrite in_app_iff in Hin); simpl in Hin;
      intuition (try discriminate; try (exfalso; eapply Hnc; eauto; fail));
      match goal with
      | H : gpt_forward _ _ _ = gpt_forward _ _ _ |- _ =>
          injection H as <- <- <-; auto
      end.
Qed.


(** A returning start-up is followed by the warm-up call. *)
Lemma warm_up_forward_in_run T reader env t rq :
  let hp := read_hyperparameters reader in
  start_up T hp env = (t, inr rq) ->
  In (gpt_forward warmup_time (output_tensors hp rq) (input_tensors hp rq))
     (trace (multi_gpu_gpt_example T reader env)).
Proof.
  intros hp Es. unfold multi_gpu_gpt_example. fold hp. rewrite Es.
  cbn [bind trace fst]. apply in_or_app. right.
  rewrite run_passes_eq. cbv zeta. rewrite warm_up_eq.
  destruct (outcome (collect_results hp env rq)); cbn [trace fst];
    apply in_or_app; left; simpl; auto 10.
Qed.

Lemma run_passes_absent P hp env rq :
  (forall e, is_start_up_event e = false -> P e = false) ->
  absent P (trace (run_passes hp env rq)).
Proof.
  intros H. eapply Forall_impl; [|apply run_passes_events]. exact H.
Qed.

Lemma example_absent P T reader env :
  let hp := read_hyperparameters reader in
  absent P (trace (start_up T hp env)) ->
  (forall rq, absent P (trace (run_passes hp env rq))) ->
  absent P (trace (multi_gpu_gpt_example T reader env)).
Proof.
  intros hp H1 H2. unfold multi_gpu_gpt_example. fold hp.
  apply trace_bind_Forall; assumption.
Qed.

Lemma int_add_Some a b c : int_add a b = Some c -> c = a + b.
Proof. unfold int_add. destruct (in_int _); congruence. Qed.

(** * The buffers *)







(** C3, as stated, fails: the scores tensor handed to the forward call has a
    null data pointer. *)
Lemma scores_tensor_is_null :
  ~ outputs_all_device_resident
      (trace (multi_gpu_gpt_example float (Sample.reader 2 2 16 4 16 8)
                                    (Sample.env 0 4 0 true))).
Proof.
  intros H.
  destruct (start_up float (read_hyperparameters (Sample.reader 2 2 16 4 16 8))
              (Sample.env 0 4 0 true)) as [t [h | rq]] eqn:Es.
  - vm_compute in Es. discriminate.
  - pose proof (warm_up_forward_in_run _ _ _ _ _ Es) as Hin.
    apply H in Hin. unfold output_tensors in Hin.
    repeat match goal with
           | H : Forall _ (_ :: _) |- _ => apply Forall_cons_iff in H as [? H]
           end.
    simpl in *. congruence.
Qed.

(** C3, amended.  Before every forward call the output-ids, parent-ids and
    sequence-lengths buffers have been allocated on the device, with
    [batch * beam * total_output_len], the same, and [batch * beam]
    elements; the call gets them with shapes [[batch, beam, total]],
    [[total, batch, beam]] and [[batch, beam]], and it gets the scores
    tensor with shape [[output_len, batch, beam]] and a null data pointer. *)
Theorem output_buffers_allocated_before_forward T reader env :
  let hp := read_hyperparameters reader in
  let r := multi_gpu_gpt_example T reader env in
  let batch := request_batch_size hp in
  let beam := beam_width hp in
  let total := to_size_t (read_max_input_len env + request_output_len hp) in
  let batch_beam := size_mul batch beam in
  forall pre s outs ins post,
    trace r = pre ++ gpt_forward s outs ins :: post ->
    In (deviceMalloc d_output_ids (size_mul batch_beam total)) pre /\
    In (deviceMalloc d_parent_ids (size_mul batch_beam total)) pre /\
    In (deviceMalloc d_sequence_lengths batch_beam) pre /\
    outs =
    [ {| where_ := MEMORY_GPU; type_ := TYPE_INT32;
         shape := [batch; beam; total]; data := device d_output_ids |};
      {| where_ := MEMORY_GPU; type_ := TYPE_INT32;
         shape := [total; batch; beam]; data := device d_parent_ids |};
      {| where_ := MEMORY_GPU; type_ := TYPE_INT32;
         shape := [batch; beam]; data := device d_sequence_lengths |};
      {| where_ := MEMORY_GPU; type_ := TYPE_FP32;
         shape := [to_size_t (request_output_len hp); batch; beam];
         data := nullptr |} ].
Proof.
  intros hp r batch beam total batch_beam pre s outs ins post E.
  destruct (forward_split T reader env pre s outs ins post E)
    as (t & rq & u & Es & -> & _ & Eo & _).
  fold hp in Es, Eo. rewrite Eo.
  destruct (start_up_returns _ _ _ _ _ Es)
    as (t2 & co & t4 & t5 & t6 & _ & _ & _ & _ & Ep & _ & ->).
  destruct (prepare_inputs_returns _ _ _ _ Ep) as (_ & Ha & _).
  apply int_add_Some in Ha. rewrite allocate_outputs_eq. cbv zeta.
  unfold output_tensors. rewrite Ha. fold batch beam total batch_beam.
  repeat split; repeat (rewrite in_app_iff); simpl; auto 10.
Qed.

Lemma output_buffers_allocated_before_forward_witness :
  let t := trace (multi_gpu_gpt_example float (Sample.reader 2 2 16 4 16 8)
                                        (Sample.env 0 4 0 true)) in
  In (deviceMalloc d_output_ids 16) (firstn 36 t) /\
  In (deviceMalloc d_sequence_lengths 2) (firstn 36 t).
Proof.
  cbv zeta.
  destruct (output_buffers_allocated_before_forward float
              (Sample.reader 2 2 16 4 16 8) (Sample.env 0 4 0 true)
              (firstn 36 (trace (multi_gpu_gpt_example float
                                   (Sample.reader 2 2 16 4 16 8)
                                   (Sample.env 0 4 0 true))))
              warmup_time
              (output_tensors (read_hyperparameters (Sample.reader 2 2 16 4 16 8))
                 {| input_ids_ptr := nullptr; input_lengths_ptr := nullptr;
                    max_input_len := 0; total_output_len := 8 |})
              (input_tensors (read_hyperparameters (Sample.reader 2 2 16 4 16 8))
                 {| input_ids_ptr := nullptr; input_lengths_ptr := nullptr;
                    max_input_len := 0; total_output_len := 8 |})
              (skipn 37 (trace (multi_gpu_gpt_example float
                                  (Sample.reader 2 2 16 4 16 8)
                                  (Sample.env 0 4 0 true)))))
    as (H1 & _ & H3 & _).
  - vm_compute. reflexivity.
  - split; [exact H1 | exact H3].
Defined.

(** * The order of the passes *)

Lemma collect_results_other_rank hp env rq :
  world_rank env <> 0 -> collect_results hp env rq = ([], inr tt).
Proof.
  intros H. unfold collect_results.
  apply Z.eqb_neq in H. now rewrite H.
Qed.

Lemma collect_results_open_fails hp env rq :
  world_rank env = 0 -> outFile_is_open env = false ->
  collect_results hp env rq
  = ([ofstream_open "out"; printf_warning "out"], inr tt).
Proof.
  intros H0 Ho. unfold collect_results.
  rewrite H0, Ho. reflexivity.
Qed.

Lemma existsb_result_file P t :
  (forall e, is_result_file_event e = true -> P e = false) ->
  Forall (fun e => is_result_file_event e = true) t ->
  existsb P t = false.
Proof.
  intros HP H. apply absent_existsb.
  eapply Forall_impl; [|exact H]. exact HP.
Qed.

(** Where a result-collection event of a run sits: after the start-up and
    the whole warm-up pass, inside the result-file block, and before the
    measured pass and the shutdown whenever those are run. *)
Lemma result_collection_split T reader env pre e post :
  let hp := read_hyperparameters reader in
  let r := multi_gpu_gpt_example T reader env in
  trace r = pre ++ e :: post ->
  is_result_collection e = true ->
  exists t rq c1 c2,
    start_up T hp env = (t, inr rq) /\
    pre = t ++ trace (warm_up (output_tensors hp rq) (input_tensors hp rq))
            ++ c1 /\
    trace (collect_results hp env rq) = c1 ++ e :: c2 /\
    (outcome r = inr tt ->
     post = c2 ++ trace (measure hp env rq 1 (output_tensors hp rq)
                                 (input_tensors hp rq))
               ++ trace tear_down).
Proof.
  intros hp r E He.
  destruct (example_cases T reader env)
    as [(t & h & Es & Er) | (t & rq & Es & Er)];
    fold hp r in Es, Er; rewrite Er in E; cbn [trace fst] in E.
  - exfalso.
    assert (absent is_result_collection t) as Ha.
    { pose proof (start_up_absent is_result_collection T hp env) as Ha.
      rewrite Es in Ha. apply Ha. intros []; simpl; congruence. }
    assert (In e t) as Hin by (rewrite E; apply in_elt).
    pose proof (absent_In _ _ _ Ha Hin). congruence.
  - assert (absent is_result_collection t) as Ha.
    { pose proof (start_up_absent is_result_collection T hp env) as Ha.
      rewrite Es in Ha. apply Ha. intros []; simpl; congruence. }
    destruct (split_after_prefix _ _ _ _ _ _ Ha He E) as (u & -> & Eu).
    rewrite run_passes_eq in Eu, Er. cbv zeta in Eu, Er.
    set (W := trace (warm_up (output_tensors hp rq) (input_tensors hp rq))) in *.
    set (C := trace (collect_results hp env rq)) in *.
    set (R := trace (measure hp env rq 1 (output_tensors hp rq)
                             (input_tensors hp rq)) ++ trace tear_down) in *.
    assert (absent is_result_collection W) as HW
      by (unfold W; rewrite warm_up_eq; repeat constructor).
    assert (absent is_result_collection R) as HR
      by (unfold R; rewrite measure_eq, tear_down_eq; repeat constructor).
    exists t, rq.
    destruct (outcome (collect_results hp env rq)) as [h | []] eqn:Eo;
      cbn [trace fst] in Eu.
    + destruct (split_after_prefix _ _ _ _ _ _ HW He Eu) as (c1 & -> & Ec).
      exists c1, post. repeat split; auto.
      rewrite Er. cbn. discriminate.
    + destruct (split_after_prefix _ _ _ _ _ _ HW He Eu) as (c1 & -> & Ec).
      destruct (split_before_suffix _ _ _ _ _ _ HR He Ec) as (c2 & Ec' & ->).
      exists c1, c2. repeat split; auto.
Qed.

Lemma none_measured_before_collection T reader env :
  none_before is_measured_pass_event is_result_collection
    (trace (multi_gpu_gpt_example T reader env)).
Proof.
  intros pre e post E He.
  destruct (result_collection_split _ _ _ _ _ _ E He)
    as (t & rq & c1 & c2 & Es & -> & Ec & _).
  rewrite !existsb_app, warm_up_eq.
  assert (existsb is_measured_pass_event t = false) as ->.
  { apply absent_existsb.
    pose proof (start_up_absent is_measured_pass_event T
                  (read_hyperparameters reader) env) as Ha.
    rewrite Es in Ha. apply Ha. intros []; unfold is_measured_pass_event; simpl; congruence. }
  assert (existsb is_measured_pass_event c1 = false) as ->.
  { apply existsb_result_file.
    - intros []; unfold is_measured_pass_event; simpl; congruence.
    - pose proof (collect_results_events (read_hyperparameters reader)
                    env rq) as Hc.
      rewrite Ec in Hc. apply Forall_app in Hc. tauto. }
  reflexivity.
Qed.

Lemma existsb_weaken (P Q : event -> bool) t :
  (forall e, P e = true -> Q e = true) ->
  existsb P t = true -> existsb Q t = true.
Proof.
  intros HPQ H. apply existsb_exists in H as (e & Hin & He).
  apply existsb_exists. eauto.
Qed.

(** C1, as stated, fails: on rank 0 the device-to-host copy is made while no
    forward call of the measured pass has been made yet. *)
Lemma results_collected_before_measured_pass :
  ~ preceded_by (is_forward_in total_time) is_result_collection
      (trace (multi_gpu_gpt_example float (Sample.reader 2 2 16 4 16 8)
                                    (Sample.env 0 4 0 true))).
Proof.
  intros H.
  set (r := multi_gpu_gpt_example float (Sample.reader 2 2 16 4 16 8)
                                  (Sample.env 0 4 0 true)) in *.
  assert (existsb is_result_collection (trace r) = true) as Hex
    by (vm_compute; reflexivity).
  apply existsb_exists in Hex as (e & Hin & He).
  apply in_split in Hin as (pre & post & E).
  pose proof (H pre e post E He) as Hpre.
  pose proof (none_measured_before_collection _ _ _ pre e post E He) as Hno.
  apply (existsb_weaken _ is_measured_pass_event) in Hpre.
  - congruence.
  - intros x Hx. unfold is_measured_pass_event. now rewrite Hx.
Qed.

(** C1, amended.  Result collection (the device-to-host copy and the writes
    to the result file) is performed after the warm-up pass and before the
    measured pass: a warm-up forward call precedes it, no event of the
    measured region precedes it, and in a run that returns the measured
    forward call follows it. *)
Theorem results_collected_between_passes T reader env :
  let r := multi_gpu_gpt_example T reader env in
  preceded_by (is_forward_in warmup_time) is_result_collection (trace r) /\
  none_before is_measured_pass_event is_result_collection (trace r) /\
  (outcome r = inr tt ->
   followed_by (is_forward_in total_time) is_result_collection (trace r)).
Proof.
  intros r. split; [|split].
  - intros pre e post E He.
    destruct (result_collection_split _ _ _ _ _ _ E He)
      as (t & rq & c1 & c2 & Es & -> & Ec & _).
    rewrite !existsb_app, warm_up_eq. simpl.
    now rewrite orb_true_r.
  - apply none_measured_before_collection.
  - intros Hret pre e post E He.
    destruct (result_collection_split _ _ _ _ _ _ E He)
      as (t & rq & c1 & c2 & Es & _ & Ec & Hpost).
    rewrite (Hpost Hret), !existsb_app, measure_eq. simpl.
    now rewrite !orb_true_r.
Qed.

Lemma results_collected_between_passes_witness :
  followed_by (is_forward_in total_time) is_result_collection
    (trace (multi_gpu_gpt_example float (Sample.reader 2 2 16 4 16 8)
                                  (Sample.env 0 4 0 true))).
Proof.
  apply (results_collected_between_passes float (Sample.reader 2 2 16 4 16 8)
           (Sample.env 0 4 0 true)).
  vm_compute. reflexivity.
Defined.




(** C10. When the result file cannot be opened on rank 0, a warning is
    printed, nothing is copied from the device or written to the file, and
    the run goes on to the measured pass and the latency report and
    returns. *)
Theorem open_failure_is_not_fatal T reader env :
  let r := multi_gpu_gpt_example T reader env in
  In (ofstream_open "out") (trace r) ->
  outFile_is_open env = false ->
  outcome r = inr tt /\
  absent is_result_collection (trace r) /\
  exists pre post,
    trace r = pre ++ ofstream_open "out" :: printf_warning "out" :: post /\
    existsb (is_forward_in total_time) post = true /\
    existsb is_latency_report post = true.
Proof.
  intros r Hin Hopen.
  destruct (example_cases T reader env)
    as [(t & h & Es & Er) | (t & rq & Es & Er)]; fold r in Er.
  - exfalso. rewrite Er in Hin. cbn [trace fst] in Hin.
    pose proof (start_up_absent is_result_file_event T
                  (read_hyperparameters reader) env) as Ha.
    rewrite Es in Ha.
    assert (is_result_file_event (ofstream_open "out") = false) as Hf.
    { eapply absent_In; [|exact Hin]. apply Ha. intros []; simpl; congruence. }
    discriminate.
  - set (hp := read_hyperparameters reader) in *.
    assert (absent is_result_file_event t) as Ha.
    { pose proof (start_up_absent is_result_file_event T hp env) as Ha.
      rewrite Es in Ha. apply Ha. intros []; simpl; congruence. }
    assert (world_rank env = 0) as H0.
    { destruct (Z.eq_dec (world_rank env) 0) as [H0 | Hne]; [exact H0|].
      exfalso. rewrite Er in Hin. cbn [trace fst] in Hin.
      rewrite run_passes_eq in Hin. cbv zeta in Hin.
      rewrite collect_results_other_rank in Hin by exact Hne.
      cbn [outcome snd trace fst] in Hin.
      rewrite warm_up_eq, measure_eq, tear_down_eq in Hin.
      apply in_app_or in Hin as [Hin | Hin].
      - pose proof (absent_In _ _ _ Ha Hin). discriminate.
      - simpl in Hin. intuition discriminate. }
    rewrite Er. rewrite run_passes_eq. cbv zeta.
    rewrite (collect_results_open_fails hp env rq H0 Hopen).
    cbn [outcome snd trace fst]. rewrite warm_up_eq, measure_eq, tear_down_eq.
    cbn [trace fst]. split; [reflexivity|]. split.
    + apply absent_app.
      * eapply Forall_impl; [|exact Ha].
        intros [] He; simpl in *; congruence.
      * repeat constructor.
    + exists (t ++ trace (warm_up (output_tensors hp rq) (input_tensors hp rq))).
      eexists. split.
      * rewrite <- app_assoc. reflexivity.
      * simpl. auto.
Qed.

Lemma open_failure_is_not_fatal_witness :
  outcome (multi_gpu_gpt_example float (Sample.reader 2 2 16 4 16 8)
                                 (Sample.env 0 4 0 false)) = inr tt.
Proof.
  apply (open_failure_is_not_fatal float (Sample.reader 2 2 16 4 16 8)
           (Sample.env 0 4 0 false)).
  - vm_compute. repeat (try (left; reflexivity); right).
  - reflexivity.
Defined.

(** * The entry point *)

Lemma example_absent_main_events P T reader env :
  (forall e, is_start_up_event e = true -> P e = false) ->
  (forall e, is_start_up_event e = false ->
             match e with
             | MPI_Init | srand _ | cout_error_cant_load _
             | printf_error_is_half | MPI_Finalize => True
             | _ => P e = false
             end) ->
  (forall outs ins, P (gpt_forward warmup_time outs ins) = false) ->
  absent P (trace (multi_gpu_gpt_example T reader env)).
Proof.
  intros H1 H2 H3. apply example_absent.
  - now apply start_up_absent.
  - intros rq. rewrite run_passes_eq. cbv zeta.
    pose proof (collect_results_events (read_hyperparameters reader) env rq)
      as Hc.
    assert (absent P (trace (collect_results (read_hyperparameters reader)
                                             env rq))) as Hc'.
    { eapply Forall_impl; [|exact Hc].
      intros e He. specialize (H2 e). destruct e; simpl in *;
        try discriminate; now apply H2. }
    rewrite warm_up_eq, measure_eq, tear_down_eq.
    destruct (outcome (collect_results _ env rq)); cbn [trace fst];
      repeat (apply absent_app); try exact Hc';
      repeat constructor;
      try (apply H3);
      match goal with
      | |- P ?e = false => apply (H2 e); reflexivity
      end.
Qed.

Lemma example_never_finalizes T reader env :
  existsb is_finalize (trace (multi_gpu_gpt_example T reader env)) = false.
Proof.
  apply absent_existsb. apply example_absent_main_events.
  - intros []; simpl; congruence.
  - intros []; simpl; auto.
  - reflexivity.
Qed.

(** The shape of a run of [main] once [MPI_Init] has succeeded and the
    configuration is loaded with a valid [is_half]. *)
Lemma main_runs_example argv open_ini env T :
  let file := open_ini (ini_name argv) in
  let e := multi_gpu_gpt_example T (content file) env in
  call_ok env 41 = true ->
  0 <= ParseError file ->
  is_half_of file = match T with float => 0 | half => 1 end ->
  main argv open_ini env =
  match outcome e with
  | inl h => (MPI_Init :: srand 0 :: trace e, inl h)
  | inr _ => (MPI_Init :: srand 0 :: trace e ++ [MPI_Finalize], inr 0)
  end.
Proof.
  intros file e Hok Hp Hh. unfold main, MPICHECK, checked.
  fold file. unfold is_half_of in Hh. fold file in Hh.
  rewrite Hok, Hh.
  replace (ParseError file <? 0) with false by (symmetry; apply Z.ltb_ge; lia).
  destruct T; cbn [Z.eqb Pos.eqb]; fold e; destruct e as [t [h | []]];
    reflexivity.
Qed.

Lemma main_cases argv open_ini env :
  let file := open_ini (ini_name argv) in
  (call_ok env 41 = false /\
   main argv open_ini env = ([MPI_Init], inl (abort 41))) \/
  (call_ok env 41 = true /\ ParseError file < 0 /\
   main argv open_ini env =
   ([MPI_Init; srand 0; cout_error_cant_load (ini_name argv)], inr (-1))) \/
  (call_ok env 41 = true /\ 0 <= ParseError file /\
   is_half_of file <> 0 /\ is_half_of file <> 1 /\
   main argv open_ini env =
   ([MPI_Init; srand 0; printf_error_is_half], inr (-1))) \/
  (exists T, call_ok env 41 = true /\ 0 <= ParseError file /\
             is_half_of file = match T with float => 0 | half => 1 end).
Proof.
  intros file. destruct (call_ok env 41) eqn:Hok.
  - right. destruct (ParseError file <? 0) eqn:Hp.
    + left. apply Z.ltb_lt in Hp. repeat split; auto.
      unfold main, MPICHECK, checked. fold file. rewrite Hok.
      apply Z.ltb_lt in Hp. now rewrite Hp.
    + right. apply Z.ltb_ge in Hp.
      destruct (is_half_of file =? 0) eqn:H0.
      * right. exists float. apply Z.eqb_eq in H0. auto.
      * destruct (is_half_of file =? 1) eqn:H1.
        -- right. exists half. apply Z.eqb_eq in H1. auto.
        -- left. pose proof H0 as H0'. pose proof H1 as H1'.
           apply Z.eqb_neq in H0', H1'. repeat split; auto.
           unfold main, MPICHECK, checked. fold file. rewrite Hok.
           unfold is_half_of in H0, H1. fold file in H0, H1.
           replace (ParseError file <? 0) with false
             by (symmetry; apply Z.ltb_ge; lia).
           now rewrite H0, H1.
  - left. split; [reflexivity|].
    unfold main, MPICHECK, checked. now rewrite Hok.
Qed.

(** [main] calls [MPI_Finalize] exactly when it returns 0, and then as its
    last action; its only other return value is -1. *)
Theorem main_finalizes_iff_success argv open_ini env :
  let r := main argv open_ini env in
  (outcome r = inr 0 <-> existsb is_finalize (trace r) = true) /\
  (outcome r = inr 0 -> exists pre, trace r = pre ++ [MPI_Finalize]) /\
  (forall v, outcome r = inr v -> v = 0 \/ v = -1).
Proof.
  intros r.
  destruct (main_cases argv open_ini env)
    as [(_ & E) | [(_ & _ & E) | [(_ & _ & _ & _ & E) | (T & Hok & Hp & Hh)]]];
    try (fold r in E; rewrite E; cbn; repeat split;
         try discriminate; intros v Hv; injection Hv as <-; auto; fail).
  pose proof (main_runs_example argv open_ini env T Hok Hp Hh) as E.
  fold r in E. cbv zeta in E.
  pose proof (example_never_finalizes T
                (content (open_ini (ini_name argv))) env) as Hn.
  destruct (outcome (multi_gpu_gpt_example T _ env)) as [h | u];
    rewrite E; cbn [outcome trace fst snd existsb is_finalize orb].
  - rewrite Hn. repeat split; try discriminate.
  - rewrite existsb_app, Hn. cbn. repeat split; auto.
    + intros _. eexists (_ :: _ :: _). reflexivity.
    + intros v Hv. injection Hv as <-. auto.
Qed.

(** [main] returns -1 exactly when [MPI_Init] succeeded and either the
    configuration could not be loaded or [is_half] is neither 0 nor 1; it
    has then printed one diagnostic and done nothing else: the example was
    not started and [MPI_Finalize] was not called. *)
Theorem main_returns_minus_one argv open_ini env :
  let file := open_ini (ini_name argv) in
  let r := main argv open_ini env in
  (outcome r = inr (-1) <->
   call_ok env 41 = true /\
   (ParseError file < 0 \/ (is_half_of file <> 0 /\ is_half_of file <> 1))) /\
  (outcome r = inr (-1) ->
   trace r = [MPI_Init; srand 0; cout_error_cant_load (ini_name argv)] \/
   trace r = [MPI_Init; srand 0; printf_error_is_half]).
Proof.
  intros file r.
  destruct (main_cases argv open_ini env)
    as [(Hok & E) | [(Hok & Hp & E) | [(Hok & Hp & H0 & H1 & E)
                                      | (T & Hok & Hp & Hh)]]];
    try fold r file in E; fold file in Hok; try fold file in Hp.
  - rewrite E. cbn. split; [|discriminate].
    split; [discriminate|]. intros (Hc & _). congruence.
  - rewrite E. cbn. split; [|auto]. split; auto.
  - rewrite E. cbn. split; [|auto]. split; auto.
  - pose proof (main_runs_example argv open_ini env T Hok Hp Hh) as E.
    fold r in E. cbv zeta in E. fold file in Hh.
    assert (outcome r <> inr (-1)) as Hne.
    { rewrite E. destruct (outcome (multi_gpu_gpt_example T _ env));
        cbn; discriminate. }
    split; [|intros Hr; contradiction].
    split; [intros Hr; contradiction|].
    intros (_ & [Hlt | (H0 & H1)]); [lia|].
    destruct T; congruence.
Qed.

Lemma main_returns_minus_one_witness :
  outcome (main ["multi_gpu_gpt_example"; "a.ini"; "b.ini"]
             (fun _ => {| ParseError := -1;
                          content := Sample.reader 2 2 16 4 16 8 |})
             (Sample.env 0 4 0 true)) = inr (-1).
Proof.
  apply (main_returns_minus_one ["multi_gpu_gpt_example"; "a.ini"; "b.ini"]
           (fun _ => {| ParseError := -1;
                        content := Sample.reader 2 2 16 4 16 8 |})
           (Sample.env 0 4 0 true)).
  split; [reflexivity|]. left. reflexivity.
Defined.

Lemma example_gemm_config_float reader env :
  absent (is_gemm_config half)
         (trace (multi_gpu_gpt_example float reader env)).
Proof.
  apply example_absent.
  - unfold start_up, check_model_shape, select_device, rank_coordinates,
      form_communicators, prepare_inputs, build_engine, allocate_outputs.
    trace_Forall.
  - intros rq. apply run_passes_absent. intros []; simpl; congruence.
Qed.

Lemma example_gemm_config_half reader env :
  absent (is_gemm_config float)
         (trace (multi_gpu_gpt_example half reader env)).
Proof.
  apply example_absent.
  - unfold start_up, check_model_shape, select_device, rank_coordinates,
      form_communicators, prepare_inputs, build_engine, allocate_outputs.
    trace_Forall.
  - intros rq. apply run_passes_absent. intros []; simpl; congruence.
Qed.

(** The GEMM configuration follows [is_half]: the FP16 configuration is set
    only in a run whose configuration has [is_half = 1], the FP32 one only
    with [is_half = 0]. *)
Theorem main_precision_follows_is_half argv open_ini env :
  let file := open_ini (ini_name argv) in
  let r := main argv open_ini env in
  (existsb (is_gemm_config half) (trace r) = true -> is_half_of file = 1) /\
  (existsb (is_gemm_config float) (trace r) = true -> is_half_of file = 0).
Proof.
  intros file r.
  destruct (main_cases argv open_ini env)
    as [(_ & E) | [(_ & _ & E) | [(_ & _ & _ & _ & E) | (T & Hok & Hp & Hh)]]];
    try (fold r in E; rewrite E; cbn; split; discriminate).
  pose proof (main_runs_example argv open_ini env T Hok Hp Hh) as E.
  fold r in E. cbv zeta in E. fold file in Hh, E.
  assert (forall T', T' <> T ->
            existsb (is_gemm_config T') (trace r) = false) as Hn.
  { intros T' HT. rewrite E.
    assert (existsb (is_gemm_config T')
              (trace (multi_gpu_gpt_example T (content file) env)) = false)
      as Hx.
    { apply absent_existsb. destruct T, T'; try congruence;
        [apply example_gemm_config_float | apply example_gemm_config_half]. }
    destruct (outcome (multi_gpu_gpt_example T (content file) env));
      cbn [trace fst existsb]; rewrite ?existsb_app, Hx;
      destruct T'; reflexivity. }
  destruct T; split; intros Hx; try exact Hh;
    rewrite Hn in Hx by discriminate; discriminate.
Qed.

Lemma main_precision_follows_is_half_witness :
  is_half_of {| ParseError := 0; content := Sample.reader 2 2 16 4 16 8 |} = 0.
Proof.
  apply (main_precision_follows_is_half ["multi_gpu_gpt_example"]
           (fun _ => {| ParseError := 0;
                        content := Sample.reader 2 2 16 4 16 8 |})
           (Sample.env 0 4 0 true)).
  vm_compute. reflexivity.
Defined.

Lemma main_finalizes_iff_success_witness :
  exists pre,
    trace (main ["multi_gpu_gpt_example"]
             (fun _ => {| ParseError := 0;
                          content := Sample.reader 2 2 16 4 16 8 |})
             (Sample.env 1 4 0 true)) = pre ++ [MPI_Finalize].
Proof.
  apply (main_finalizes_iff_success ["multi_gpu_gpt_example"]
           (fun _ => {| ParseError := 0;
                        content := Sample.reader 2 2 16 4 16 8 |})
           (Sample.env 1 4 0 true)).
  vm_compute. reflexivity.
Defined.

(** * The second layer check *)

Lemma to_int_congruent z : exists k, to_int z = z + UINT_MODULUS * k.
Proof.
  unfold to_int, INT_MIN, UINT_MODULUS.
  exists (- ((z - -2147483648) / 4294967296)).
  pose proof (Z.div_mod (z - -2147483648) 4294967296). lia.
Qed.

Lemma to_size_t_congruent z : exists k, to_size_t z = z + UINT_MODULUS * k.
Proof.
  unfold to_size_t, SIZE_MODULUS, UINT_MODULUS.
  exists (- (4294967296 * (z / 18446744073709551616))).
  pose proof (Z.div_mod z 18446744073709551616). lia.
Qed.

(** Once line 102 has passed, the comparison of line 128 finds equality
    whenever its product is defined. *)
Lemma layers_product_matches dl p q prod :
  size_rem dl (to_size_t p) = Some 0 ->
  size_div dl (to_size_t p) = Some q ->
  int_mul (to_int q) p = Some prod ->
  prod = to_int dl.
Proof.
  unfold size_rem, size_div, int_mul.
  destruct (to_size_t p =? 0) eqn:EP; [discriminate|].
  apply Z.eqb_neq in EP. intros Hm Hq Hp.
  injection Hm as Hm. injection Hq as <-.
  destruct (in_int _) eqn:Hin; [|discriminate]. injection Hp as <-.
  assert (dl = to_size_t p * (dl / to_size_t p)) as Hdl.
  { pose proof (Z.div_mod dl (to_size_t p) EP). lia. }
  remember (dl / to_size_t p) as q eqn:Eq. clear Eq.
  destruct (to_int_congruent q) as (k1 & E1).
  destruct (to_size_t_congruent p) as (k2 & E2).
  destruct (to_int_congruent dl) as (k3 & E3).
  pose proof (to_int_range dl) as Hr.
  unfold in_int in Hin. apply andb_true_iff in Hin as (Hlo & Hhi).
  apply Z.leb_le in Hlo, Hhi.
  assert (to_int q * p - to_int dl
          = UINT_MODULUS * (k1 * p - k2 * q - k3)) as Hd.
  { rewrite E1, E3, Hdl, E2. ring. }
  unfold INT_MIN, INT_MAX, UINT_MODULUS in *. lia.
Qed.

Lemma rank_coordinates_no_layers_diagnostic hp env :
  size_rem (decoder_layers hp) (to_size_t (pipeline_para_size hp)) = Some 0 ->
  absent is_layers_diagnostic (trace (rank_coordinates hp env)).
Proof.
  intros Hm. unfold rank_coordinates.
  destruct (int_mul (tensor_para_size hp) _) as [prod|]; [|constructor].
  cbn. destruct (prod =? world_size env); [|repeat constructor].
  cbn. destruct (int_rem _ _) as [tr|]; [|constructor].
  cbn. destruct (int_div _ _) as [pr|]; [|constructor].
  cbn. destruct (size_div _ _) as [q|] eqn:Eq; [|constructor].
  cbn. destruct (int_mul (to_int q) _) as [prod'|] eqn:Ep; [|constructor].
  rewrite (layers_product_matches _ _ _ _ Hm Eq Ep).
  cbn. rewrite Z.eqb_refl. constructor.
Qed.

(** The layers-per-group diagnostic of lines 128-134 is dead code: no run
    prints it, whatever the configuration and the environment. *)
Theorem layers_diagnostic_is_dead_code T reader env :
  absent is_layers_diagnostic (trace (multi_gpu_gpt_example T reader env)).
Proof.
  apply example_absent.
  - set (hp := read_hyperparameters reader). unfold start_up.
    destruct (check_model_shape hp) as [t1 [h | []]] eqn:E1.
    + destruct (check_model_shape_halts _ _ _ E1) as (-> & _). constructor.
    + destruct (check_model_shape_returns _ _ E1) as (_ & Hm).
      pose proof (check_model_shape_silent hp) as Hs. rewrite E1 in Hs.
      simpl in Hs. subst t1.
      apply trace_bind_Forall; [constructor | intros _].
      apply trace_bind_Forall.
      * unfold select_device. trace_Forall.
      * intros _. apply trace_bind_Forall.
        -- now apply rank_coordinates_no_layers_diagnostic.
        -- intros co.
           unfold form_communicators, prepare_inputs, build_engine,
             allocate_outputs.
           trace_Forall.
  - intros rq. apply run_passes_absent. intros []; simpl; congruence.
Qed.

(** * The write loop *)

(** One iteration of the loop, away from undefined behaviour. *)
Lemma write_tokens_step n i hBuf L zc :
  to_size_t L <> 0 ->
  0 <= i -> i + 1 < SIZE_MODULUS ->
  INT_MIN <= zc -> zc + 1 <= INT_MAX ->
  write_tokens (S n) i hBuf L zc =
  (let r := (i + 1) mod to_size_t L in
   let rest := write_tokens n (i + 1) hBuf L
                            (if hBuf i =? 0 then zc + 1 else zc) in
   (outFile_put (hBuf i)
      :: (if r =? 0 then [outFile_endl] else [])
      ++ (if i <? 10 then [printf_token (hBuf i)] else [])
      ++ (if (r =? 0) && (i <? 10) then [cout_endl] else [])
      ++ trace rest,
    outcome rest)).
Proof.
  intros HL Hi Hi' Hz Hz'. cbn [write_tokens].
  rewrite int_add_in_range by lia.
  unfold size_add. rewrite (Z.mod_small (i + 1)) by lia.
  unfold size_rem. apply Z.eqb_neq in HL. rewrite HL.
  cbv zeta. unfold when.
  destruct (hBuf i =? 0); cbn [bind ub ret emit fst snd app];
    destruct ((i + 1) mod to_size_t L =? 0);
    destruct (i <? 10); cbn [bind ub ret emit fst snd app andb];
    destruct (write_tokens n (i + 1) hBuf L _) as [t [h | z]];
    reflexivity.
Qed.

Lemma zeros_step hBuf i n :
  zeros hBuf i (S n)
  = (if hBuf (Z.of_nat i) =? 0 then 1 else 0) + zeros hBuf (S i) n.
Proof.
  unfold zeros. cbn [seq filter].
  destruct (hBuf (Z.of_nat i) =? 0); cbn [List.length]; lia.
Qed.

Lemma zeros_bounds hBuf i n : 0 <= zeros hBuf i n <= Z.of_nat n.
Proof.
  unfold zeros. split; [lia|].
  apply inj_le. etransitivity; [apply filter_length_le|].
  rewrite length_seq. lia.
Qed.

Lemma filter_when (P : event -> bool) (c : bool) e :
  filter P (if c then [e] else []) = if c && P e then [e] else [].
Proof. destruct c; simpl; [destruct (P e)|]; reflexivity. Qed.

(** The loop returns, with the number of zero tokens; the file gets one
    item per token, the terminal the tokens of index below 10. *)
Lemma write_tokens_spec hBuf L :
  to_size_t L <> 0 ->
  forall n i zc,
    INT_MIN <= zc -> zc + Z.of_nat n <= INT_MAX ->
    Z.of_nat i + Z.of_nat n < SIZE_MODULUS ->
    exists t,
      write_tokens n (Z.of_nat i) hBuf L zc = (t, inr (zc + zeros hBuf i n)) /\
      filter is_file_write t
      = flat_map (file_item hBuf (to_size_t L)) (seq i n) /\
      filter is_echo t
      = map (fun j => printf_token (hBuf (Z.of_nat j)))
            (filter (fun j => Z.of_nat j <? 10) (seq i n)).
Proof.
  intros HL. induction n as [|n IH]; intros i zc Hz Hz' Hi.
  - exists []. cbn. unfold zeros. cbn. rewrite Z.add_0_r. auto.
  - pose proof (zeros_bounds hBuf (S i) n) as Hb.
    destruct (IH (S i) (if hBuf (Z.of_nat i) =? 0 then zc + 1 else zc))
      as (t & Et & Hf & He);
      [destruct (hBuf (Z.of_nat i) =? 0); lia ..|].
    rewrite write_tokens_step by lia.
    replace (Z.of_nat i + 1) with (Z.of_nat (S i)) by lia.
    rewrite Et. cbv zeta. cbn [trace outcome fst snd].
    eexists. split; [|split].
    + f_equal. f_equal. rewrite zeros_step.
      destruct (hBuf (Z.of_nat i) =? 0); lia.
    + cbn [filter is_file_write seq flat_map]. unfold file_item at 1.
      rewrite !filter_app, !filter_when, Hf. cbn [is_file_write].
      rewrite !andb_false_r, andb_true_r. cbn [app].
      replace (Z.of_nat i + 1) with (Z.of_nat (S i)) by lia.
      destruct (Z.of_nat (S i) mod to_size_t L =? 0); reflexivity.
    + cbn [filter is_echo seq].
      rewrite !filter_app, !filter_when, He. cbn [is_echo].
      rewrite !andb_false_r, andb_true_r. cbn [app].
      destruct (Z.of_nat i <? 10); reflexivity.
Qed.

(** ** Rows *)

Lemma flat_map_plain hBuf L xs :
  (forall j, In j xs -> (Z.of_nat j + 1) mod L <> 0) ->
  flat_map (file_item hBuf L) xs
  = map (fun j => outFile_put (hBuf (Z.of_nat j))) xs.
Proof.
  induction xs as [|x xs IH]; intros H; [reflexivity|].
  cbn [flat_map map]. unfold file_item at 1.
  replace ((Z.of_nat x + 1) mod L =? 0) with false
    by (symmetry; apply Z.eqb_neq; apply H; now left).
  cbn [app]. f_equal. apply IH. intros j Hj. apply H. now right.
Qed.

(** The items of one row: the line break comes after its last token. *)
Lemma file_items_of_row hBuf len k :
  (0 < len)%nat ->
  flat_map (file_item hBuf (Z.of_nat len)) (seq (k * len) len)
  = file_row hBuf len k.
Proof.
  intros Hlen. unfold file_row.
  destruct len as [|m]; [lia|].
  rewrite seq_S, flat_map_app, map_app, <- app_assoc.
  rewrite flat_map_plain.
  - f_equal. cbn [flat_map map app]. unfold file_item.
    replace ((Z.of_nat (k * S m + m) + 1) mod Z.of_nat (S m) =? 0) with true;
      [reflexivity|].
    symmetry. apply Z.eqb_eq.
    replace (Z.of_nat (k * S m + m) + 1)
      with (0 + (Z.of_nat k + 1) * Z.of_nat (S m)) by lia.
    rewrite Z_mod_plus_full. reflexivity.
  - intros j Hj. apply in_seq in Hj.
    replace (Z.of_nat j + 1)
      with (Z.of_nat (j - k * S m) + 1 + Z.of_nat k * Z.of_nat (S m)) by lia.
    rewrite Z_mod_plus_full. rewrite Z.mod_small by lia. lia.
Qed.

Lemma file_items_by_rows hBuf len rows :
  (0 < len)%nat ->
  flat_map (file_item hBuf (Z.of_nat len)) (seq 0 (rows * len))
  = flat_map (file_row hBuf len) (seq 0 rows).
Proof.
  intros Hlen. induction rows as [|rows IH]; [reflexivity|].
  replace (S rows * len)%nat with (rows * len + len)%nat by lia.
  rewrite seq_app, flat_map_app, IH, seq_S, flat_map_app.
  cbn [flat_map]. rewrite app_nil_r. f_equal.
  apply file_items_of_row. exact Hlen.
Qed.

Lemma filter_below_ten n :
  filter (fun j => Z.of_nat j <? 10) (seq 0 n) = seq 0 (Nat.min n 10).
Proof.
  induction n as [|n IH]; [reflexivity|].
  rewrite seq_S, filter_app, IH. cbn [filter Nat.add].
  destruct (Z.of_nat n <? 10) eqn:E.
  - apply Z.ltb_lt in E.
    replace (Nat.min (S n) 10) with (S (Nat.min n 10)) by lia.
    rewrite seq_S. replace (Nat.min n 10) with n by lia. reflexivity.
  - apply Z.ltb_ge in E. rewrite app_nil_r. f_equal. lia.
Qed.

(** ** The result-file block on rank 0 *)

Lemma outCount_exact total batch beam :
  0 <= total * batch * beam < SIZE_MODULUS ->
  size_mul (size_mul (to_size_t total) batch) beam = total * batch * beam.
Proof.
  intros H. unfold size_mul, to_size_t.
  rewrite Z.mul_mod_idemp_l by (unfold SIZE_MODULUS; lia).
  rewrite <- Z.mul_assoc.
  rewrite Z.mul_mod_idemp_l by (unfold SIZE_MODULUS; lia).
  rewrite Z.mul_assoc. now apply Z.mod_small.
Qed.

Lemma outCount_zero batch beam :
  size_mul (size_mul (to_size_t 0) batch) beam = 0.
Proof.
  reflexivity.
Qed.

(** With the file open, rank 0 copies [outCount] ids, writes them with the
    loop and reports the number of zeros. *)
Lemma collect_results_writes hp env rq :
  let total := total_output_len rq in
  let count := total * request_batch_size hp * beam_width hp in
  world_rank env = 0 -> outFile_is_open env = true ->
  0 < total <= INT_MAX -> 0 <= count <= INT_MAX ->
  exists t,
    collect_results hp env rq
    = (ofstream_open "out" :: cudaD2Hcpy d_output_ids count
         :: cout_writing count
         :: t ++ [cout_endl;
                  cout_zeroCount (zeros (output_ids env) 0 (Z.to_nat count))],
       inr tt) /\
    filter is_file_write t
    = flat_map (file_item (output_ids env) total) (seq 0 (Z.to_nat count)) /\
    filter is_echo t
    = map (fun j => printf_token (output_ids env (Z.of_nat j)))
          (seq 0 (Nat.min (Z.to_nat count) 10)).
Proof.
  intros total count H0 Hopen Ht Hc.
  assert (to_size_t total = total) as EL
    by (apply to_size_t_id; unfold INT_MAX, SIZE_MODULUS in *; lia).
  destruct (write_tokens_spec (output_ids env) total) with
    (n := Z.to_nat count) (i := 0%nat) (zc := 0) as (t & Et & Hf & He).
  - rewrite EL. lia.
  - unfold INT_MIN. lia.
  - rewrite Z2Nat.id by lia. lia.
  - rewrite Z2Nat.id by lia. unfold INT_MAX, SIZE_MODULUS in *. lia.
  - exists t. rewrite EL in Hf. rewrite filter_below_ten in He.
    split; [|split; assumption].
    unfold collect_results, when. fold total.
    rewrite H0, Hopen. cbn [Z.eqb negb].
    rewrite outCount_exact
      by (fold count; unfold INT_MAX, SIZE_MODULUS in *; lia).
    fold count. cbn [bind emit fst snd app]. change (Z.of_nat 0) with 0 in Et.
    rewrite Et. reflexivity.
Qed.

(** The result file is a matrix: one row for each of the [batch * beam]
    sequences, each row the [total_output_len] ids of the sequence in
    order, followed by a line break. *)
Theorem result_file_is_a_matrix hp env rq :
  let total := total_output_len rq in
  let rows := request_batch_size hp * beam_width hp in
  world_rank env = 0 -> outFile_is_open env = true ->
  0 < total <= INT_MAX -> 0 <= rows -> total * rows <= INT_MAX ->
  outcome (collect_results hp env rq) = inr tt /\
  filter is_file_write (trace (collect_results hp env rq))
  = flat_map (file_row (output_ids env) (Z.to_nat total))
             (seq 0 (Z.to_nat rows)).
Proof.
  intros total rows H0 Hopen Ht Hr Hc.
  destruct (collect_results_writes hp env rq H0 Hopen Ht)
    as (t & E & Hf & _); fold total.
  { unfold rows in *. nia. }
  rewrite E. cbn [outcome snd trace fst]. split; [reflexivity|].
  cbn [filter is_file_write]. rewrite filter_app, Hf.
  cbn [filter is_file_write]. rewrite app_nil_r. fold total.
  replace (Z.to_nat (total * request_batch_size hp * beam_width hp))
    with (Z.to_nat rows * Z.to_nat total)%nat
    by (unfold rows; rewrite <- Z2Nat.inj_mul by lia; f_equal; lia).
  rewrite <- (file_items_by_rows _ (Z.to_nat total)) by lia.
  rewrite Z2Nat.id by lia. reflexivity.
Qed.

Lemma result_file_is_a_matrix_witness :
  let hp := read_hyperparameters (Sample.reader 2 2 16 4 16 8) in
  let rq := {| input_ids_ptr := nullptr; input_lengths_ptr := nullptr;
               max_input_len := 0; total_output_len := 8 |} in
  filter is_file_write (trace (collect_results hp (Sample.env 0 4 0 true) rq))
  = flat_map (file_row (output_ids (Sample.env 0 4 0 true)) 8) (seq 0 2).
Proof.
  cbv zeta.
  apply (result_file_is_a_matrix
           (read_hyperparameters (Sample.reader 2 2 16 4 16 8))
           (Sample.env 0 4 0 true)
           {| input_ids_ptr := nullptr; input_lengths_ptr := nullptr;
              max_input_len := 0; total_output_len := 8 |});
    vm_compute; repeat split; first [reflexivity | discriminate].
Defined.

(** The count printed after the loop is the number of ids equal to zero
    among the [outCount] ids copied from the device. *)
Theorem zero_count_is_reported hp env rq :
  let total := total_output_len rq in
  let count := total * request_batch_size hp * beam_width hp in
  world_rank env = 0 -> outFile_is_open env = true ->
  0 < total <= INT_MAX -> 0 <= count <= INT_MAX ->
  exists pre,
    trace (collect_results hp env rq)
    = pre ++ [cout_zeroCount (zeros (output_ids env) 0 (Z.to_nat count))].
Proof.
  intros total count H0 Hopen Ht Hc.
  destruct (collect_results_writes hp env rq H0 Hopen Ht Hc)
    as (t & E & _). fold total count in E.
  rewrite E. cbn [trace fst].
  exists (ofstream_open "out" :: cudaD2Hcpy d_output_ids count
            :: cout_writing count :: t ++ [cout_endl]).
  simpl. rewrite <- app_assoc. reflexivity.
Qed.

Lemma zero_count_is_reported_witness :
  let hp := read_hyperparameters (Sample.reader 2 2 16 4 16 8) in
  let rq := {| input_ids_ptr := nullptr; input_lengths_ptr := nullptr;
               max_input_len := 0; total_output_len := 8 |} in
  exists pre,
    trace (collect_results hp (Sample.env 0 4 0 true) rq)
    = pre ++ [cout_zeroCount 14].
Proof.
  cbv zeta.
  apply (zero_count_is_reported
           (read_hyperparameters (Sample.reader 2 2 16 4 16 8))
           (Sample.env 0 4 0 true)
           {| input_ids_ptr := nullptr; input_lengths_ptr := nullptr;
              max_input_len := 0; total_output_len := 8 |});
    vm_compute; repeat split; first [reflexivity | discriminate].
Defined.

(** Only the first ten ids are echoed on the terminal, in order: fewer when
    fewer are copied, never more. *)
Theorem at_most_ten_tokens_echoed hp env rq :
  let total := total_output_len rq in
  let count := total * request_batch_size hp * beam_width hp in
  world_rank env = 0 -> outFile_is_open env = true ->
  0 < total <= INT_MAX -> 0 <= count <= INT_MAX ->
  filter is_echo (trace (collect_results hp env rq))
  = map (fun j => printf_token (output_ids env (Z.of_nat j)))
        (seq 0 (Nat.min (Z.to_nat count) 10)).
Proof.
  intros total count H0 Hopen Ht Hc.
  destruct (collect_results_writes hp env rq H0 Hopen Ht Hc)
    as (t & E & _ & He). fold total count in E, He.
  rewrite E. cbn [trace fst filter is_echo].
  rewrite filter_app, He. cbn [filter is_echo]. now rewrite app_nil_r.
Qed.

Lemma at_most_ten_tokens_echoed_witness :
  let hp := read_hyperparameters (Sample.reader 2 2 16 4 16 8) in
  let rq := {| input_ids_ptr := nullptr; input_lengths_ptr := nullptr;
               max_input_len := 0; total_output_len := 8 |} in
  List.length
    (filter is_echo (trace (collect_results hp (Sample.env 0 4 0 true) rq)))
  = 10%nat.
Proof.
  cbv zeta.
  rewrite (at_most_ten_tokens_echoed
             (read_hyperparameters (Sample.reader 2 2 16 4 16 8))
             (Sample.env 0 4 0 true)
             {| input_ids_ptr := nullptr; input_lengths_ptr := nullptr;
                max_input_len := 0; total_output_len := 8 |});
    vm_compute; repeat split; first [reflexivity | discriminate].
Defined.

(** * The passes of a run that returns *)

Lemma absent_filter P t : absent P t -> filter P t = [].
Proof.
  induction 1 as [|e t He _ IH]; [reflexivity|].
  cbn. now rewrite He.
Qed.

Lemma result_file_events_filter P t :
  (forall e, is_result_file_event e = true -> P e = false) ->
  Forall (fun e => is_result_file_event e = true) t ->
  filter P t = [].
Proof.
  intros HP H. apply absent_filter. eapply Forall_impl; [|exact H]. exact HP.
Qed.

(** A run that returns is a start-up followed by all four later regions. *)
Lemma example_returns T reader env :
  let hp := read_hyperparameters reader in
  outcome (multi_gpu_gpt_example T reader env) = inr tt ->
  exists t rq,
    start_up T hp env = (t, inr rq) /\
    outcome (collect_results hp env rq) = inr tt /\
    trace (multi_gpu_gpt_example T reader env)
    = t ++ trace (warm_up (output_tensors hp rq) (input_tensors hp rq))
        ++ trace (collect_results hp env rq)
        ++ trace (measure hp env rq 1 (output_tensors hp rq)
                          (input_tensors hp rq))
        ++ trace tear_down.
Proof.
  intros hp Hret.
  destruct (example_cases T reader env)
    as [(t & h & Es & Er) | (t & rq & Es & Er)];
    rewrite Er in Hret |- *; cbn [outcome trace fst snd] in *;
    [discriminate|].
  fold hp in Es, Hret |- *. exists t, rq. split; [exact Es|].
  rewrite run_passes_eq in Hret |- *. cbv zeta in Hret |- *.
  destruct (outcome (collect_results hp env rq)) as [h | []];
    cbn [outcome snd] in Hret; [discriminate|]. split; reflexivity.
Qed.

(** A run that does not return stops before the measured pass. *)
Lemma example_halts T reader env h :
  let hp := read_hyperparameters reader in
  outcome (multi_gpu_gpt_example T reader env) = inl h ->
  (exists t, start_up T hp env = (t, inl h) /\
             trace (multi_gpu_gpt_example T reader env) = t) \/
  (exists t rq,
     start_up T hp env = (t, inr rq) /\
     outcome (collect_results hp env rq) = inl h /\
     trace (multi_gpu_gpt_example T reader env)
     = t ++ trace (warm_up (output_tensors hp rq) (input_tensors hp rq))
         ++ trace (collect_results hp env rq)).
Proof.
  intros hp Hh.
  destruct (example_cases T reader env)
    as [(t & h' & Es & Er) | (t & rq & Es & Er)];
    rewrite Er in Hh |- *; cbn [outcome trace fst snd] in *;
    fold hp in Es, Hh |- *.
  - injection Hh as <-. left. eauto.
  - right. exists t, rq. split; [exact Es|].
    rewrite run_passes_eq in Hh |- *. cbv zeta in Hh |- *.
    destruct (outcome (collect_results hp env rq)) as [h' | []];
      cbn [outcome snd] in Hh; [|discriminate].
    injection Hh as <-. split; reflexivity.
Qed.

(** The NCCL communicators are destroyed exactly in the runs that return:
    every early stop leaves them as they are. *)
Theorem communicators_destroyed_iff_returns T reader env :
  let r := multi_gpu_gpt_example T reader env in
  existsb is_destroy (trace r) = true <-> outcome r = inr tt.
Proof.
  intros r. split.
  - intros Hd. destruct (outcome r) as [h | []] eqn:Ho; [|reflexivity].
    exfalso.
    assert (forall t, Forall (fun e => is_start_up_event e = true) t ->
                      existsb is_destroy t = false) as Hs.
    { intros t Ht. apply absent_existsb. eapply Forall_impl; [|exact Ht].
      intros []; simpl; congruence. }
    destruct (example_halts T reader env h Ho)
      as [(t & Es & Et) | (t & rq & Es & _ & Et)]; fold r in Et;
      rewrite Et in Hd;
      pose proof (start_up_events T (read_hyperparameters reader) env) as He;
      rewrite Es in He; cbn [trace fst] in He.
    + rewrite (Hs t He) in Hd. discriminate.
    + rewrite !existsb_app, (Hs t He), warm_up_eq in Hd.
      rewrite (existsb_result_file is_destroy
                 (trace (collect_results (read_hyperparameters reader)
                                         env rq))) in Hd.
      * cbn in Hd. discriminate.
      * intros []; simpl; congruence.
      * apply collect_results_events.
  - intros Hret.
    destruct (example_returns T reader env Hret) as (t & rq & _ & _ & Et).
    fold r in Et. rewrite Et, !existsb_app, tear_down_eq. cbn.
    now rewrite !orb_true_r.
Qed.

(** A run that returns has called the engine exactly twice, once in the
    warm-up and once in the measured pass, on the same tensors. *)
Theorem two_forward_calls_on_same_tensors T reader env :
  let r := multi_gpu_gpt_example T reader env in
  outcome r = inr tt ->
  exists outs ins,
    filter is_forward (trace r)
    = [gpt_forward warmup_time outs ins; gpt_forward total_time outs ins].
Proof.
  intros r Hret.
  destruct (example_returns T reader env Hret) as (t & rq & Es & _ & Et).
  fold r in Et. rewrite Et.
  exists (output_tensors (read_hyperparameters reader) rq),
         (input_tensors (read_hyperparameters reader) rq).
  rewrite !filter_app.
  pose proof (start_up_no_forward T (read_hyperparameters reader) env) as Ha.
  rewrite Es in Ha. cbn [trace fst] in Ha. rewrite (absent_filter _ _ Ha).
  rewrite (result_file_events_filter is_forward
             (trace (collect_results (read_hyperparameters reader) env rq))).
  - rewrite warm_up_eq, measure_eq, tear_down_eq. reflexivity.
  - intros []; simpl; congruence.
  - apply collect_results_events.
Qed.

Lemma two_forward_calls_on_same_tensors_witness :
  List.length
    (filter is_forward
       (trace (multi_gpu_gpt_example half (Sample.reader 2 2 16 4 16 8)
                                     (Sample.env 3 4 5 true)))) = 2%nat.
Proof.
  destruct (two_forward_calls_on_same_tensors half
              (Sample.reader 2 2 16 4 16 8) (Sample.env 3 4 5 true))
    as (outs & ins & E).
  - vm_compute. reflexivity.
  - rewrite E. reflexivity.
Defined.

(** * What a run that returns has checked *)

Lemma int_mul_Some a b c : int_mul a b = Some c -> c = a * b.
Proof. unfold int_mul. destruct (in_int _); congruence. Qed.

Lemma size_rem_Some_zero a b :
  size_rem a b = Some 0 -> b <> 0 /\ a mod b = 0.
Proof.
  unfold size_rem. destruct (b =? 0) eqn:E; [discriminate|].
  apply Z.eqb_neq in E. intros H. injection H as H. auto.
Qed.

(** A run that returns had a valid configuration: the partition matches the
    world size, both model-shape divisions are exact, and the total length
    fits the maximum sequence length. *)
Theorem returning_run_had_valid_configuration T reader env :
  let hp := read_hyperparameters reader in
  outcome (multi_gpu_gpt_example T reader env) = inr tt ->
  tensor_para_size hp * pipeline_para_size hp = world_size env /\
  tensor_para_size hp <> 0 /\ pipeline_para_size hp <> 0 /\
  head_num hp mod to_size_t (tensor_para_size hp) = 0 /\
  decoder_layers hp mod to_size_t (pipeline_para_size hp) = 0 /\
  read_max_input_len env + request_output_len hp <= max_seq_len hp.
Proof.
  intros hp Hret.
  destruct (example_returns T reader env Hret) as (t & rq & Es & _).
  fold hp in Es.
  destruct (start_up_returns _ _ _ _ _ Es)
    as (t2 & co & t4 & t5 & t6 & Ec & _ & Er & _ & Ep & _).
  destruct (check_model_shape_returns _ _ Ec) as (Hh & Hl).
  apply size_rem_Some_zero in Hh as (Ht0 & Hh).
  apply size_rem_Some_zero in Hl as (Hp0 & Hl).
  destruct (rank_coordinates_returns _ _ _ _ Er) as (_ & Hm & _).
  apply int_mul_Some in Hm.
  destruct (prepare_inputs_returns _ _ _ _ Ep) as (_ & Ha & Hle & _).
  apply int_add_Some in Ha.
  pose proof (hyperparameters_ranges reader) as Hr.
  cbv zeta in Hr. fold hp in Hr.
  destruct Hr as (_ & _ & _ & _ & _ & Hmax & _).
  pose proof (to_int_le (max_seq_len hp)).
  repeat split; auto; try lia.
  - intros E. apply Ht0. rewrite E. reflexivity.
  - intros E. apply Hp0. rewrite E. reflexivity.
Qed.

Lemma returning_run_had_valid_configuration_witness :
  let hp := read_hyperparameters (Sample.reader 2 2 16 4 16 8) in
  tensor_para_size hp * pipeline_para_size hp
  = world_size (Sample.env 2 4 3 true).
Proof.
  cbv zeta.
  apply (returning_run_had_valid_configuration float
           (Sample.reader 2 2 16 4 16 8) (Sample.env 2 4 3 true)).
  vm_compute. reflexivity.
Defined.

(** * A valid configuration runs to the end *)

Lemma outcome_bind {A B : Type} (m : M A) (f : A -> M B) a :
  outcome m = inr a -> outcome (bind m f) = outcome (f a).
Proof. destruct m as [t [h | a']]; cbn; intros E; [discriminate|]. now injection E as ->. Qed.

Lemma write_tokens_nothing i hBuf L zc :
  write_tokens 0 i hBuf L zc = ([], inr zc).
Proof. reflexivity. Qed.

(** The result-file block returns when the element count fits an [int]. *)
Lemma collect_results_returns hp env rq :
  let total := total_output_len rq in
  let count := total * request_batch_size hp * beam_width hp in
  0 <= total <= INT_MAX -> 0 <= count <= INT_MAX ->
  outcome (collect_results hp env rq) = inr tt.
Proof.
  intros total count Ht Hc.
  destruct (Z.eq_dec (world_rank env) 0) as [H0 | Hne];
    [|now rewrite collect_results_other_rank].
  destruct (outFile_is_open env) eqn:Hopen;
    [|now rewrite collect_results_open_fails].
  destruct (Z.eq_dec total 0) as [Hz | Hnz].
  - unfold collect_results, when. fold total.
    rewrite H0, Hopen, Hz. cbn [Z.eqb negb].
    rewrite outCount_zero. reflexivity.
  - destruct (collect_results_writes hp env rq H0 Hopen) as (t & E & _);
      fold total; fold count; try lia.
    now rewrite E.
Qed.

(** With every external call succeeding and a configuration within the
    driver's limits, the run returns: no check fires on a valid input. *)
Theorem valid_configuration_runs_to_the_end T reader env :
  let hp := read_hyperparameters reader in
  let total := read_max_input_len env + request_output_len hp in
  (forall line, call_ok env line = true) ->
  0 <= world_rank env -> 0 < device_count env ->
  world_size env <= INT_MAX ->
  0 < tensor_para_size hp -> 0 < pipeline_para_size hp ->
  tensor_para_size hp * pipeline_para_size hp = world_size env ->
  (tensor_para_size hp | head_num hp) ->
  (pipeline_para_size hp | decoder_layers hp) ->
  decoder_layers hp <= INT_MAX ->
  0 <= total <= max_seq_len hp -> max_seq_len hp <= INT_MAX ->
  total * request_batch_size hp * beam_width hp <= INT_MAX ->
  outcome (multi_gpu_gpt_example T reader env) = inr tt.
Proof.
  intros hp total Hok Hrank Hdc Hws Ht Hp Hprod Hhead Hlayers Hdl Htot Hmax Hcnt.
  pose proof (hyperparameters_ranges reader) as Hr.
  cbv zeta in Hr. fold hp in Hr.
  destruct Hr as (Htr & Hpr & _ & Hhr & Hdr & Hmr & Hbr & Hwr).
  unfold multi_gpu_gpt_example. fold hp.
  assert (exists rq, outcome (start_up T hp env) = inr rq /\
                     total_output_len rq = total) as (rq & Es & Erq).
  { unfold start_up.
    (* lines 101-102 *)
    rewrite (outcome_bind _ _ tt).
    2:{ unfold check_model_shape.
        rewrite !size_rem_positive_int by lia.
        apply Z.mod_divide in Hhead, Hlayers; try lia.
        rewrite Hhead, Hlayers. reflexivity. }
    (* lines 105-118 *)
    rewrite (outcome_bind _ _ tt).
    2:{ unfold select_device, MPICHECK, check_cuda_error, checked, when.
        rewrite !Hok. rewrite int_rem_positive by lia.
        destruct (world_rank env =? 0); reflexivity. }
    (* lines 120-134 *)
    rewrite (outcome_bind _ _
               {| tensor_para_rank := Z.rem (world_rank env) (tensor_para_size hp);
                  pipeline_para_rank := Z.quot (world_rank env) (tensor_para_size hp) |}).
    2:{ unfold rank_coordinates.
        unfold int_mul at 1. rewrite Hprod.
        assert (in_int (world_size env) = true) as ->.
        { unfold in_int. apply andb_true_iff.
          split; apply Z.leb_le; unfold INT_MIN; nia. }
        cbn [ub bind ret fst snd app]. rewrite Z.eqb_refl. cbn [negb].
        cbn [bind ret fst snd app].
        rewrite int_rem_positive, int_div_positive by lia.
        cbn [ub bind ret fst snd app].
        rewrite to_size_t_id by (unfold INT_MAX, SIZE_MODULUS in *; lia).
        unfold size_div.
        replace (pipeline_para_size hp =? 0) with false
          by (symmetry; apply Z.eqb_neq; lia).
        cbn [ub bind ret fst snd app].
        destruct Hlayers as (q & Hq).
        assert (decoder_layers hp / pipeline_para_size hp = q) as ->
          by (rewrite Hq; apply Z.div_mul; lia).
        assert (0 <= q <= INT_MAX) as Hqr by (unfold INT_MAX in *; nia).
        rewrite (to_int_id q) by (unfold INT_MIN; lia).
        unfold int_mul. rewrite <- Hq.
        assert (in_int (decoder_layers hp) = true) as ->.
        { unfold in_int. apply andb_true_iff.
          split; apply Z.leb_le; unfold INT_MIN; lia. }
        cbn [ub bind ret fst snd app].
        rewrite (to_int_id (decoder_layers hp)) by (unfold INT_MIN; lia).
        rewrite Z.eqb_refl. reflexivity. }
    (* lines 143-178 *)
    rewrite (outcome_bind _ _ tt).
    2:{ unfold form_communicators, NCCLCHECK, checked, when.
        rewrite !Hok.
        destruct (rank_tensor_parallel env =? 0);
          destruct (rank_pipeline_parallel env =? 0); reflexivity. }
    (* lines 181-212 *)
    assert (exists rq, outcome (prepare_inputs hp env) = inr rq /\
                       total_output_len rq = total) as (rq & Ep & Erq).
    { unfold prepare_inputs.
      rewrite int_add_in_range by (fold total; unfold INT_MIN; lia).
      fold total. rewrite (to_int_id (max_seq_len hp)) by (unfold INT_MIN; lia).
      assert ((total >? max_seq_len hp) = false) as Hgt
        by (rewrite Z.gtb_ltb; apply Z.ltb_ge; lia).
      destruct (read_max_input_len env =? 0);
        cbn [bind emit ret ub fst snd app outcome];
        rewrite Hgt; eexists; split; reflexivity. }
    exists rq. split; [|exact Erq].
    rewrite (outcome_bind _ _ rq) by exact Ep.
    (* lines 214-287 *)
    rewrite (outcome_bind _ _ tt).
    2:{ unfold build_engine, MPICHECK, checked, when. rewrite !Hok.
        destruct (1 <? world_size env); reflexivity. }
    reflexivity. }
  rewrite (outcome_bind _ _ rq) by exact Es.
  rewrite run_passes_eq. cbv zeta.
  rewrite collect_results_returns; [reflexivity | |]; rewrite Erq.
  - lia.
  - fold total. split; [|lia].
    apply Z.mul_nonneg_nonneg; [apply Z.mul_nonneg_nonneg|]; lia.
Qed.

Lemma valid_configuration_runs_to_the_end_witness :
  outcome (multi_gpu_gpt_example float (Sample.reader 2 2 16 4 16 8)
                                 (Sample.env 3 4 5 true)) = inr tt.
Proof.
  apply (valid_configuration_runs_to_the_end float
           (Sample.reader 2 2 16 4 16 8) (Sample.env 3 4 5 true));
    try (vm_compute; repeat split; first [reflexivity | discriminate]).
  - exists 8. reflexivity.
  - exists 2. reflexivity.
Defined.

(** * Communicator roots and the random seed *)

Ltac trace_Forall_by tac :=
  unfold absent, MPICHECK, NCCLCHECK, check_cuda_error, when;
  repeat match goal with
  | |- Forall _ (trace (bind _ _)) => apply trace_bind_Forall; [ | intros ]
  | |- Forall _ (trace (emit _)) => apply Forall_emit; tac
  | |- Forall _ (trace (ret _)) => apply Forall_nil
  | |- Forall _ (trace (stop _)) => apply Forall_nil
  | |- Forall _ (trace (ub _ _)) => apply Forall_ub
  | |- Forall _ (trace (FT_CHECK _ _)) => apply Forall_FT_CHECK
  | |- Forall _ (trace (checked _ _ _)) => apply Forall_checked; tac
  | |- Forall _ (trace (if ?c then _ else _)) => destruct c
  end.

Lemma start_up_no_unique_id_off_root T hp env c :
  local_rank env c <> 0 ->
  absent (is_unique_id_of c) (trace (start_up T hp env)).
Proof.
  intros H. apply Z.eqb_neq in H.
  unfold start_up, check_model_shape, select_device, rank_coordinates,
    form_communicators, prepare_inputs, build_engine, allocate_outputs, when.
  destruct c; cbn [local_rank] in H; rewrite H; cbv iota; trace_Forall.
Qed.

(** A process asks NCCL for a fresh unique id of a group only when it is
    the root (local rank 0) of that group. *)
Theorem unique_id_only_from_local_root T reader env c :
  existsb (is_unique_id_of c) (trace (multi_gpu_gpt_example T reader env))
  = true ->
  local_rank env c = 0.
Proof.
  intros Hex. destruct (Z.eq_dec (local_rank env c) 0) as [H0 | Hne];
    [exact H0 | exfalso].
  assert (absent (is_unique_id_of c)
                 (trace (multi_gpu_gpt_example T reader env))) as Ha.
  { apply example_absent.
    - now apply start_up_no_unique_id_off_root.
    - intros rq. apply run_passes_absent.
      intros []; destruct c; simpl; congruence. }
  apply absent_existsb in Ha. congruence.
Qed.

Lemma unique_id_only_from_local_root_witness :
  local_rank (Sample.env 2 4 0 true) comm_tensor_parallel = 0.
Proof.
  apply (unique_id_only_from_local_root float (Sample.reader 2 2 16 4 16 8)
           (Sample.env 2 4 0 true) comm_tensor_parallel).
  vm_compute. reflexivity.
Defined.

Lemma seed_of_rank rank size bcast :
  0 <= rank < size ->
  (if rank =? 0 then Some 0
   else if 1 <? size then Some bcast else None)
  = Some (if rank =? 0 then 0 else bcast).
Proof.
  intros H. destruct (rank =? 0) eqn:E; [reflexivity|].
  apply Z.eqb_neq in E.
  replace (1 <? size) with true by (symmetry; apply Z.ltb_lt; lia).
  reflexivity.
Qed.

(** On a rank inside the world ([0 <= rank < world_size]) the seed handed
    to the engine is never the uninitialised variable: it is 0 on rank 0
    and the broadcast value on every other rank. *)
Theorem engine_seed_is_initialised T reader env e seed :
  0 <= world_rank env < world_size env ->
  In e (trace (multi_gpu_gpt_example T reader env)) ->
  engine_seed e = Some seed ->
  seed = Some (if world_rank env =? 0 then 0 else bcast_random_seed env).
Proof.
  intros Hrank Hin Hs.
  set (P := fun e => forall sd, engine_seed e = Some sd ->
              sd = Some (if world_rank env =? 0 then 0
                         else bcast_random_seed env)).
  assert (Forall P (trace (multi_gpu_gpt_example T reader env))) as HF.
  { unfold multi_gpu_gpt_example. apply trace_bind_Forall.
    - unfold start_up, check_model_shape, select_device, rank_coordinates,
        form_communicators, prepare_inputs, build_engine, allocate_outputs.
      trace_Forall_by
        ltac:(first [ intros sd E; discriminate E
                    | intros sd E; injection E as <-;
                      now apply seed_of_rank ]).
    - intros rq. eapply Forall_impl; [|apply run_passes_events].
      intros [] He sd E; simpl in *; congruence. }
  rewrite Forall_forall in HF. exact (HF e Hin seed Hs).
Qed.

Lemma engine_seed_is_initialised_witness :
  Some 0 = Some (if world_rank (Sample.env 3 4 0 true) =? 0 then 0
                 else bcast_random_seed (Sample.env 3 4 0 true)).
Proof.
  apply (engine_seed_is_initialised float (Sample.reader 2 2 16 4 16 8)
           (Sample.env 3 4 0 true)
           (ParallelGpt_new 1 16 64 4096 4 50304 50256 50256 1 (Some 0)
                            2 1 2 1)).
  - vm_compute. split; [discriminate | reflexivity].
  - vm_compute. repeat (try (left; reflexivity); right).
  - reflexivity.
Defined.

(** * Exits *)

Section ExitFacts.

Context {A B : Type}.

Lemma exits_after_diagnostic_bind (m : M A) (f : A -> M B) :
  exits_after_diagnostic m ->
  (forall a, exits_after_diagnostic (f a)) ->
  exits_after_diagnostic (bind m f).
Proof.
  intros Hm Hf status. destruct m as [t [h | a]]; cbn.
  - intros E. injection E as ->. apply (Hm status). reflexivity.
  - intros E. destruct (Hf a status E) as (-> & pre & d & Et & Hd).
    split; [reflexivity|]. exists (t ++ pre), d.
    unfold trace in Et. rewrite Et, app_assoc. auto.
Qed.

Lemma exits_after_diagnostic_never (m : M A) :
  (forall status, outcome m <> inl (exit status)) ->
  exits_after_diagnostic m.
Proof. intros H status E. now apply H in E. Qed.

Lemma exits_after_diagnostic_exit d :
  is_exit_diagnostic d = true ->
  exits_after_diagnostic (emit d ;; @stop A (exit (-1))).
Proof.
  intros Hd status E. cbn in E. injection E as <-.
  split; [reflexivity|]. exists [], d. auto.
Qed.

End ExitFacts.

Ltac exits_auto :=
  unfold MPICHECK, NCCLCHECK, check_cuda_error, checked, when, ub, FT_CHECK;
  repeat match goal with
  | |- exits_after_diagnostic (bind (emit _) (fun _ => stop (exit _))) =>
      apply exits_after_diagnostic_exit; reflexivity
  | |- exits_after_diagnostic (bind _ _) =>
      apply exits_after_diagnostic_bind; [ | intros ]
  | |- exits_after_diagnostic (if ?c then _ else _) => destruct c
  | |- exits_after_diagnostic (match ?o with Some _ => _ | None => _ end) =>
      destruct o
  | |- exits_after_diagnostic _ =>
      apply exits_after_diagnostic_never; intros; discriminate
  end.

Lemma write_tokens_never_exits n : forall i hBuf L zc status,
  outcome (write_tokens n i hBuf L zc) <> inl (exit status).
Proof.
  induction n as [|n IH]; intros i hBuf L zc status; [discriminate|].
  cbn [write_tokens]. unfold ub, when.
  destruct (hBuf i =? 0); [destruct (int_add zc 1); [|discriminate]|];
    cbn [bind ret emit stop fst snd app];
    (destruct (size_rem _ _) as [r|]; [|discriminate]);
    cbn [bind ret emit stop fst snd app];
    destruct (r =? 0); destruct (i <? 10);
    cbn [bind ret emit stop fst snd app andb outcome];
    apply IH.
Qed.

Lemma run_passes_never_exits hp env rq status :
  outcome (run_passes hp env rq) <> inl (exit status).
Proof.
  rewrite run_passes_eq. cbv zeta.
  destruct (outcome (collect_results hp env rq)) as [h | u] eqn:E;
    [|discriminate].
  cbn. intros Hh. injection Hh as ->.
  revert E. unfold collect_results, when.
  destruct (world_rank env =? 0); [|discriminate].
  destruct (outFile_is_open env); cbn [negb bind emit fst snd app outcome];
    [|discriminate].
  pose proof (write_tokens_never_exits
                (Z.to_nat (size_mul (size_mul (to_size_t (total_output_len rq))
                                              (request_batch_size hp))
                                    (beam_width hp)))
                0 (output_ids env) (total_output_len rq) 0 status) as Hw.
  destruct (write_tokens _ 0 (output_ids env) (total_output_len rq) 0)
    as [t [h | z]]; cbn in *; congruence.
Qed.

(** A run that ends by [exit] ends with [exit(-1)], and the last thing it
    did before was to print one of the [[ERROR]] diagnostics. *)
Theorem exit_follows_a_diagnostic T reader env :
  exits_after_diagnostic (multi_gpu_gpt_example T reader env).
Proof.
  unfold multi_gpu_gpt_example. apply exits_after_diagnostic_bind.
  - unfold start_up, check_model_shape, select_device, rank_coordinates,
      form_communicators, prepare_inputs, build_engine, allocate_outputs.
    exits_auto.
  - intros rq. apply exits_after_diagnostic_never.
    intros status. apply run_passes_never_exits.
Qed.

Lemma exit_follows_a_diagnostic_witness :
  exists pre d,
    trace (multi_gpu_gpt_example float (Sample.reader 2 2 16 4 16 32)
                                 (Sample.env 0 4 0 true)) = pre ++ [d] /\
    is_exit_diagnostic d = true.
Proof.
  apply (exit_follows_a_diagnostic float (Sample.reader 2 2 16 4 16 32)
           (Sample.env 0 4 0 true) (-1)).
  vm_compute. reflexivity.
Defined.

(** * The length limit as an [int] *)

(** Line 209 compares with [(int)max_seq_len]: when the configured maximum
    does not survive the conversion to [int], a request within the
    configured maximum is refused all the same. *)
Theorem length_check_uses_truncated_limit T reader env :
  let hp := read_hyperparameters reader in
  let total := read_max_input_len env + request_output_len hp in
  to_int (max_seq_len hp) < total ->
  outcome (multi_gpu_gpt_example T reader env) <> inr tt.
Proof.
  intros hp total Hlt Hret.
  destruct (example_returns T reader env Hret) as (t & rq & Es & _).
  fold hp in Es.
  destruct (start_up_returns _ _ _ _ _ Es)
    as (t2 & co & t4 & t5 & t6 & _ & _ & _ & _ & Ep & _).
  destruct (prepare_inputs_returns _ _ _ _ Ep) as (_ & Ha & Hle & _).
  apply int_add_Some in Ha. unfold total in Hlt. lia.
Qed.

Lemma length_check_uses_truncated_limit_witness :
  let reader := Sample.reader 2 2 16 4 4294967296 8 in
  read_max_input_len (Sample.env 0 4 0 true)
  + request_output_len (read_hyperparameters reader)
  <= max_seq_len (read_hyperparameters reader) /\
  outcome (multi_gpu_gpt_example float reader (Sample.env 0 4 0 true))
  <> inr tt.
Proof.
  cbv zeta. split.
  - vm_compute. discriminate.
  - apply (length_check_uses_truncated_limit float
             (Sample.reader 2 2 16 4 4294967296 8) (Sample.env 0 4 0 true)).
    vm_compute. reflexivity.
Defined.

(** * Values handed to CUDA and NCCL *)

Lemma trace_bind_Forall_dep {A B : Type} (P : event -> Prop)
    (m : M A) (f : A -> M B) :
  Forall P (trace m) ->
  (forall a, outcome m = inr a -> Forall P (trace (f a))) ->
  Forall P (trace (bind m f)).
Proof.
  destruct m as [t1 [h | a]]; simpl; intros H1 H2; [exact H1|].
  apply Forall_app. split; [exact H1 | now apply H2].
Qed.

Lemma ub_returns line o a : outcome (ub line o) = inr a -> o = Some a.
Proof. destruct o; cbn; intros E; [now injection E as -> | discriminate]. Qed.

Lemma int_rem_Some a b c : int_rem a b = Some c -> c = Z.rem a b.
Proof. unfold int_rem. destruct (_ || _); congruence. Qed.

Lemma int_div_Some a b c : int_div a b = Some c -> c = Z.quot a b.
Proof. unfold int_div. destruct (_ || _); congruence. Qed.

(** Every process binds to an existing device: with [device_count] devices
    the device chosen at line 111 is [rank mod device_count]. *)
Theorem device_selection_is_round_robin T reader env dev :
  0 <= world_rank env -> 0 < device_count env ->
  In (cudaSetDevice dev) (trace (multi_gpu_gpt_example T reader env)) ->
  dev = world_rank env mod device_count env /\
  0 <= dev < device_count env.
Proof.
  intros Hrank Hdc Hin.
  set (P := fun e => forall d, e = cudaSetDevice d ->
                               d = world_rank env mod device_count env).
  assert (Forall P (trace (multi_gpu_gpt_example T reader env))) as HF.
  { unfold multi_gpu_gpt_example. apply trace_bind_Forall.
    - unfold start_up. apply trace_bind_Forall.
      + rewrite check_model_shape_silent. constructor.
      + intros _. apply trace_bind_Forall.
        * unfold select_device.
          apply trace_bind_Forall;
            [trace_Forall_by ltac:(intros d E; discriminate E)|intros _].
          apply trace_bind_Forall;
            [trace_Forall_by ltac:(intros d E; discriminate E)|intros _].
          apply trace_bind_Forall;
            [trace_Forall_by ltac:(intros d E; discriminate E)|intros _].
          apply trace_bind_Forall;
            [trace_Forall_by ltac:(intros d E; discriminate E)|intros _].
          apply trace_bind_Forall_dep; [apply Forall_ub|].
          intros d0 Hd0. apply ub_returns, int_rem_Some in Hd0.
          rewrite Z.rem_mod_nonneg in Hd0 by lia.
          trace_Forall_by
            ltac:(first [ intros d E; discriminate E
                        | intros d E; injection E as <-; exact Hd0 ]).
        * intros _.
          unfold rank_coordinates, form_communicators, prepare_inputs,
            build_engine, allocate_outputs.
          trace_Forall_by ltac:(intros d E; discriminate E).
    - intros rq. eapply Forall_impl; [|apply run_passes_events].
      intros [] He d E; simpl in *; congruence. }
  rewrite Forall_forall in HF. rewrite (HF _ Hin dev eq_refl).
  split; [reflexivity|]. apply Z.mod_pos_bound. exact Hdc.
Qed.

Lemma device_selection_is_round_robin_witness :
  3 = world_rank (Sample.env 3 4 0 true)
      mod device_count (Sample.env 3 4 0 true) /\
  0 <= 3 < device_count (Sample.env 3 4 0 true).
Proof.
  apply (device_selection_is_round_robin float (Sample.reader 2 2 16 4 16 8)
           (Sample.env 3 4 0 true) 3).
  - vm_compute. discriminate.
  - vm_compute. reflexivity.
  - vm_compute. repeat (try (left; reflexivity); right).
Defined.

Lemma start_up_join_coordinates T hp env :
  0 < tensor_para_size hp ->
  0 <= world_rank env < world_size env ->
  Forall (fun e => forall c n rk, e = ncclCommInitRank c n rk ->
            0 <= rk < n /\
            match c with
            | comm_tensor_parallel =>
                n = tensor_para_size hp /\
                rk = world_rank env mod tensor_para_size hp
            | comm_pipeline_parallel =>
                n = pipeline_para_size hp /\
                rk = world_rank env / tensor_para_size hp
            end)
         (trace (start_up T hp env)).
Proof.
  intros Ht Hrank. unfold start_up. apply trace_bind_Forall.
  - rewrite check_model_shape_silent. constructor.
  - intros _. apply trace_bind_Forall.
    + unfold select_device.
      trace_Forall_by ltac:(intros c0 n0 rk0 E; discriminate E).
    + intros _. apply trace_bind_Forall_dep.
      * unfold rank_coordinates.
        trace_Forall_by ltac:(intros c0 n0 rk0 E; discriminate E).
      * intros co Hco.
        destruct (rank_coordinates_returns hp env
                    (trace (rank_coordinates hp env)) co)
          as (_ & Hm & Hr & Hq).
        { rewrite <- Hco. apply surjective_run. }
        apply int_mul_Some in Hm.
        apply int_rem_Some in Hr. apply int_div_Some in Hq.
        rewrite Z.rem_mod_nonneg in Hr by lia.
        rewrite Z.quot_div_nonneg in Hq by lia.
        destruct (grid_coordinates_in_range (tensor_para_size hp)
                    (pipeline_para_size hp) (world_rank env) Ht)
          as (Hr1 & Hr2); [lia|].
        unfold form_communicators, prepare_inputs, build_engine,
          allocate_outputs.
        trace_Forall_by
          ltac:(first [ intros c0 n0 rk0 E; discriminate E
                      | intros c0 n0 rk0 E; injection E as <- <- <-;
                        rewrite ?Hr, ?Hq; auto ]).
Qed.

(** Each process joins its two NCCL communicators with the size of the
    group and its own coordinate in it: [rank mod tensor_size] among
    [tensor_size] for the tensor-parallel group, [rank / tensor_size] among
    [pipeline_size] for the pipeline-parallel one; on a rank inside the
    world the coordinate is inside the group. *)
Theorem communicator_join_uses_grid_coordinates T reader env c n rk :
  let hp := read_hyperparameters reader in
  0 < tensor_para_size hp ->
  0 <= world_rank env < world_size env ->
  In (ncclCommInitRank c n rk) (trace (multi_gpu_gpt_example T reader env)) ->
  0 <= rk < n /\
  match c with
  | comm_tensor_parallel =>
      n = tensor_para_size hp /\ rk = world_rank env mod tensor_para_size hp
  | comm_pipeline_parallel =>
      n = pipeline_para_size hp /\ rk = world_rank env / tensor_para_size hp
  end.
Proof.
  intros hp Ht Hrank Hin.
  pose proof (start_up_join_coordinates T hp env Ht Hrank) as Hs.
  unfold multi_gpu_gpt_example in Hin. fold hp in Hin.
  apply in_split in Hin as (pre & post & E).
  pose proof (trace_bind_Forall _ (start_up T hp env)
                (fun rq => run_passes hp env rq) Hs) as HF.
  rewrite E in HF. apply Forall_elt in HF.
  - exact (HF c n rk eq_refl).
  - intros rq. eapply Forall_impl; [|apply run_passes_events].
    intros e He cc nn rr E0; subst e; simpl in He; congruence.
Qed.

Lemma communicator_join_uses_grid_coordinates_witness :
  0 <= 1 < 2.
Proof.
  apply (communicator_join_uses_grid_coordinates float
           (Sample.reader 2 2 16 4 16 8) (Sample.env 3 4 0 true)
           comm_pipeline_parallel 2 1).
  - vm_compute. reflexivity.
  - vm_compute. split; [discriminate | reflexivity].
  - vm_compute. repeat (try (left; reflexivity); right).
Defined.

Lemma communicators_destroyed_iff_returns_witness :
  existsb is_destroy
    (trace (multi_gpu_gpt_example float (Sample.reader 2 2 16 4 16 8)
                                  (Sample.env 1 4 0 true))) = true.
Proof.
  apply (communicators_destroyed_iff_returns float
           (Sample.reader 2 2 16 4 16 8) (Sample.env 1 4 0 true)).
  vm_compute. reflexivity.
Defined.

(** * Communicators come first *)

Lemma trace_bind_split {A B : Type} (m : M A) (f : A -> M B) :
  exists b, trace (bind m f) = trace m ++ b /\
            (b = [] \/ exists a, b = trace (f a)).
Proof.
  destruct m as [t [h | a]]; cbn.
  - exists []. rewrite app_nil_r. auto.
  - exists (fst (f a)). split; [reflexivity|]. right. exists a. reflexivity.
Qed.

Lemma form_communicators_events hp env co :
  Forall (fun e => is_communicator_formation e = true)
         (trace (form_communicators hp env co)).
Proof. unfold form_communicators. trace_Forall. Qed.

Lemma after_communicators_absent T hp env co :
  absent is_communicator_formation
    (trace (rq <- prepare_inputs hp env ;;
            build_engine T hp env co ;;
            allocate_outputs hp rq ;;
            ret rq)).
Proof.
  unfold prepare_inputs, build_engine, allocate_outputs. trace_Forall.
Qed.

(** The start-up trace is a part made of topology and communicator events
    followed by a part without communicator events. *)
Lemma start_up_split T hp env :
  exists a b,
    trace (start_up T hp env) = a ++ b /\
    absent is_device_allocation a /\
    absent is_communicator_formation b.
Proof.
  assert (forall t, Forall (fun e => is_topology_event e = true) t ->
                    absent is_device_allocation t) as Htop.
  { intros t Ht. eapply Forall_impl; [|exact Ht].
    intros []; simpl; congruence. }
  assert (forall t, Forall (fun e => is_communicator_formation e = true) t ->
                    absent is_device_allocation t) as Hcomm.
  { intros t Ht. eapply Forall_impl; [|exact Ht].
    intros []; simpl; congruence. }
  unfold start_up.
  destruct (trace_bind_split (check_model_shape hp)
              (fun _ => select_device env ;;
                        co <- rank_coordinates hp env ;;
                        form_communicators hp env co ;;
                        rq <- prepare_inputs hp env ;;
                        build_engine T hp env co ;;
                        allocate_outputs hp rq ;; ret rq))
    as (b1 & -> & [-> | (_ & ->)]);
    rewrite check_model_shape_silent; cbn [app].
  { exists [], []. repeat split; constructor. }
  destruct (trace_bind_split (select_device env)
              (fun _ => co <- rank_coordinates hp env ;;
                        form_communicators hp env co ;;
                        rq <- prepare_inputs hp env ;;
                        build_engine T hp env co ;;
                        allocate_outputs hp rq ;; ret rq))
    as (b2 & -> & [-> | (_ & ->)]).
  { exists (trace (select_device env)), []. rewrite app_nil_r.
    repeat split; [apply Htop, select_device_topology | constructor]. }
  destruct (trace_bind_split (rank_coordinates hp env)
              (fun co => form_communicators hp env co ;;
                         rq <- prepare_inputs hp env ;;
                         build_engine T hp env co ;;
                         allocate_outputs hp rq ;; ret rq))
    as (b3 & -> & [-> | (co & ->)]).
  { exists (trace (select_device env) ++ trace (rank_coordinates hp env)), [].
    rewrite !app_nil_r. repeat split; [|constructor].
    apply absent_app; apply Htop;
      [apply select_device_topology | apply rank_coordinates_topology]. }
  destruct (trace_bind_split (form_communicators hp env co)
              (fun _ => rq <- prepare_inputs hp env ;;
                        build_engine T hp env co ;;
                        allocate_outputs hp rq ;; ret rq))
    as (b4 & -> & Hb4).
  exists (trace (select_device env) ++ trace (rank_coordinates hp env)
            ++ trace (form_communicators hp env co)), b4.
  rewrite <- !app_assoc. repeat split.
  - apply absent_app; [|apply absent_app].
    + apply Htop, select_device_topology.
    + apply Htop, rank_coordinates_topology.
    + apply Hcomm, form_communicators_events.
  - destruct Hb4 as [-> | (_ & ->)]; [constructor|].
    apply after_communicators_absent.
Qed.

(** No device buffer is allocated before the communicators are formed: in
    every run, whatever precedes an event of the communicator formation
    (the grid, its rows and columns, the unique ids, the joins) contains no
    [deviceMalloc]. *)
Theorem no_allocation_before_communicators T reader env :
  none_before is_device_allocation is_communicator_formation
    (trace (multi_gpu_gpt_example T reader env)).
Proof.
  intros pre e post E He.
  set (hp := read_hyperparameters reader) in *.
  destruct (start_up_split T hp env) as (a & b & Es & Ha & Hb).
  destruct (trace_bind_split (start_up T hp env)
              (fun rq => run_passes hp env rq)) as (c & Ec & Hc).
  change (trace (multi_gpu_gpt_example T reader env))
    with (trace (bind (start_up T hp env) (fun rq => run_passes hp env rq)))
    in E.
  rewrite Ec, Es, <- app_assoc in E.
  assert (absent is_communicator_formation (b ++ c)) as Hbc.
  { apply absent_app; [exact Hb|].
    destruct Hc as [-> | (rq & ->)]; [constructor|].
    apply run_passes_absent. intros []; simpl; congruence. }
  destruct (split_before_suffix _ _ _ _ _ _ Hbc He E) as (a2 & -> & _).
  apply absent_existsb. unfold absent in *.
  apply Forall_app in Ha. tauto.
Qed.

Lemma no_allocation_before_communicators_witness :
  existsb is_device_allocation
    (firstn 9 (trace (multi_gpu_gpt_example float
                        (Sample.reader 2 2 16 4 16 8)
                        (Sample.env 0 4 3 true)))) = false.
Proof.
  apply (no_allocation_before_communicators float
           (Sample.reader 2 2 16 4 16 8) (Sample.env 0 4 3 true)
           (firstn 9 (trace (multi_gpu_gpt_example float
                               (Sample.reader 2 2 16 4 16 8)
                               (Sample.env 0 4 3 true))))
           (MPI_Cart_create [2; 2] [0; 0] 0)
           (skipn 10 (trace (multi_gpu_gpt_example float
                               (Sample.reader 2 2 16 4 16 8)
                               (Sample.env 0 4 3 true))))).
  - vm_compute. reflexivity.
  - reflexivity.
Defined.
